(** * VABCPartitionWriter: the copy-on-write partition writer of update_engine

    A shallow embedding of [payload_consumer/vabc_partition_writer.cc].
    The writer talks to four collaborators it does not implement: the
    preference store ([prefs_]), the COW writer ([cow_writer_]), the source
    file descriptor ([source_fd_]) and the operation converter.  Each of them
    is an arbitrary deterministic object here: its answer to a call is a
    function of the calls made so far.  Every call is recorded, with its
    answer, in a trace, so that statements about which calls happen, in which
    order, can be made about the code itself. *)

From Stdlib Require Import ZArith List Bool Lia.
From Stdlib.Strings Require Import Byte.
Import ListNotations.
Local Open Scope Z_scope.

(** ** Machine integers *)

Module Int64.

Definition min_signed : Z := -9223372036854775808.
Definition max_signed : Z := 9223372036854775807.
Definition modulus : Z := 18446744073709551616.

Definition in_range (z : Z) : bool := (min_signed <=? z) && (z <=? max_signed).

(** [size_t] and [uint64_t] arithmetic wraps modulo 2^64. *)
Definition unsigned (z : Z) : Z := z mod modulus.

(** Conversion of a 64-bit pattern to [int64_t] (two's complement). *)
Definition signed (z : Z) : Z :=
  let u := z mod modulus in
  if u <=? max_signed then u else u - modulus.

(** [int64_t] addition; an overflowing signed addition has no defined
    result in C++. *)
Definition add (a b : Z) : option Z :=
  if in_range (a + b) then Some (a + b) else None.

End Int64.

(** ** Data model *)

Inductive CowOperationType := CowCopy | CowReplace.

Record CowOperation := {
  op : CowOperationType;
  src_block : Z;
  dst_block : Z
}.

Record Extent := {
  start_block : Z;
  num_blocks : Z
}.

Inductive InstallOperationType := REPLACE | SOURCE_COPY | ZERO | DISCARD.

Record InstallOperation := {
  op_type : InstallOperationType;
  src_extents : list Extent;
  dst_extents : list Extent
}.

Record CowMergeOperation := {
  merge_src_extent : Extent;
  merge_dst_extent : Extent
}.

Record PartitionUpdate := {
  operations : list InstallOperation;
  merge_operations : list CowMergeOperation
}.

Record InstallPlan := {
  is_resume : bool
}.

Inductive ErrorCode := kSuccess | kError.

(** ** Calls to the collaborators *)

(** The methods of [android::snapshot::ICowWriter] the writer uses. *)
Inductive CowCall :=
| Initialize
| InitializeAppend (label : Z)
| AddCopy (new_block old_block : Z)
| AddRawBlocks (new_block_start : Z) (data : list byte) (size : Z)
| AddZeroBlocks (new_block_start blocks : Z)
| AddLabel (label : Z)
| Finalize.

(** One entry per call that leaves the writer, with the answer it got. *)
Inductive Event :=
| EvPartitionWriterInit (ok : bool)
| EvOpenCowWriter (resume : bool) (ok : bool)
| EvGetInt64 (result : option Z)
| EvSetInt64 (value : Z) (ok : bool)
| EvConvert
| EvPReadAll (count offset : Z) (ok : bool) (data : list byte)
| EvCow (call : CowCall) (ok : bool).

(** The behaviour of the collaborators: what each call answers after a given
    history of calls. *)
Record Collaborators := {
  (** [PartitionWriter::Init], the base class initialisation. *)
  base_Init : list Event -> bool -> bool;
  (** [dynamic_control_->OpenCowWriter]: is the returned pointer non-null? *)
  open_cow_writer : list Event -> bool -> bool;
  (** does the preference store answer a read? *)
  prefs_readable : list Event -> bool;
  (** does the preference store accept the write of this value? *)
  prefs_writable : list Event -> Z -> bool;
  (** [ConvertToCowOperations] of cow_operation_convert.h, a pure function *)
  ConvertToCowOperations :
    list InstallOperation -> list CowMergeOperation -> list CowOperation;
  (** the source device: success flag and the bytes found for a read of
      [count] bytes at [offset] *)
  source_read : list Event -> Z -> Z -> bool * list byte;
  (** does the COW writer accept the call? *)
  cow_reply : list Event -> CowCall -> bool
}.

(** ** State *)

(** The fields of the writer object together with the world it acts on. *)
Record State := {
  block_size_ : Z;
  partition_update_ : PartitionUpdate;
  (** [cow_writer_] holds a writer ([true]) or is null ([false]) *)
  cow_writer_ : bool;
  (** the value stored under [kPrefsUpdateStatePartitionNextOperation] *)
  prefs : option Z;
  (** the calls made so far, oldest first *)
  trace : list Event
}.

Definition record (e : Event) (s : State) : State :=
  {| block_size_ := block_size_ s;
     partition_update_ := partition_update_ s;
     cow_writer_ := cow_writer_ s;
     prefs := prefs s;
     trace := trace s ++ [e] |}.

Definition set_prefs (v : option Z) (s : State) : State :=
  {| block_size_ := block_size_ s;
     partition_update_ := partition_update_ s;
     cow_writer_ := cow_writer_ s;
     prefs := v;
     trace := trace s |}.

Definition set_cow_writer (w : bool) (s : State) : State :=
  {| block_size_ := block_size_ s;
     partition_update_ := partition_update_ s;
     cow_writer_ := w;
     prefs := prefs s;
     trace := trace s |}.

(** ** The monad of the embedding: state, plus undefined behaviour *)

Inductive Res (A : Type) :=
| Val (a : A)
| Undefined.
Arguments Val {A} a.
Arguments Undefined {A}.

Definition M (A : Type) : Type := State -> Res A * State.

Definition ret {A} (a : A) : M A := fun s => (Val a, s).

Definition bind {A B} (m : M A) (k : A -> M B) : M B :=
  fun s =>
    match m s with
    | (Val a, s') => k a s'
    | (Undefined, s') => (Undefined, s')
    end.

Definition undefined {A} : M A := fun s => (Undefined, s).

(** Reading a field of the writer. *)
Definition get {A} (field : State -> A) : M A := fun s => (Val (field s), s).

Notation "x <- m ;; k" := (bind m (fun x => k))
  (at level 61, m at next level, right associativity).

(** [TEST_AND_RETURN_FALSE(x)] of common/utils.h: leave the function with
    [false] when [x] is false. *)
Notation "'TEST_AND_RETURN_FALSE' m ;; k" :=
  (bind m (fun b : bool => if b then k else ret false))
  (at level 61, m at next level, right associativity).

Section Writer.

Variable E : Collaborators.

(** *** The collaborators' calls

    A call records its arguments as the callee receives them.  Two
    arguments change type at the call: the byte offset of a read, an
    unsigned product handed to an [off_t], and the label of [Flush], an
    [int64_t] handed to a [uint64_t]. *)

(** [PartitionWriter::Init(install_plan, source_may_exist)] of the base
    class. *)
Definition PartitionWriter_Init (source_may_exist : bool) : M bool :=
  fun s =>
    let ok := base_Init E (trace s) source_may_exist in
    (Val ok, record (EvPartitionWriterInit ok) s).

(** [cow_writer_ = dynamic_control_->OpenCowWriter(...)] *)
Definition OpenCowWriter (resume : bool) : M unit :=
  fun s =>
    let ok := open_cow_writer E (trace s) resume in
    (Val tt, record (EvOpenCowWriter resume ok) (set_cow_writer ok s)).

(** Modelled from the spec: [prefs_->GetInt64], the read of the Checkpoint
    Store, "a durable mapping from a fixed key to a 64-bit integer, with
    get/set", [GetInt(key) -> (value, ok)].  A read answers the stored value
    and changes nothing; it fails when the store is unreadable or holds no
    value. *)
Definition prefs_GetInt64 : M (option Z) :=
  fun s =>
    let r := if prefs_readable E (trace s) then prefs s else None in
    (Val r, record (EvGetInt64 r) s).

(** Modelled from the spec: [prefs_->SetInt64], the write of the Checkpoint
    Store, [SetInt(key, value) -> ok].  A write that is accepted replaces
    the stored value; one that is refused leaves it as it was. *)
Definition prefs_SetInt64 (value : Z) : M bool :=
  fun s =>
    let ok := prefs_writable E (trace s) value in
    (Val ok,
     record (EvSetInt64 value ok) (if ok then set_prefs (Some value) s else s)).

(** A call through [cow_writer_]; through a null pointer it is undefined. *)
Definition cow (c : CowCall) : M bool :=
  fun s =>
    if cow_writer_ s then
      let ok := cow_reply E (trace s) c in
      (Val ok, record (EvCow c ok) s)
    else (Undefined, s).

(** [ConvertToCowOperations(partition_update_.operations(),
    partition_update_.merge_operations())] *)
Definition convert : M (list CowOperation) :=
  fun s =>
    (Val (ConvertToCowOperations E
            (operations (partition_update_ s))
            (merge_operations (partition_update_ s))),
     record EvConvert s).

(** Modelled from the spec: [utils::PReadAll] on [source_fd], the Block
    Source Reader, [ReadAt(buffer, length, byteOffset) -> bytesRead].  It
    answers a success flag and the number of bytes read, at most [count];
    these bytes overwrite the beginning of [buffer].  On failure
    [bytes_read] keeps its initial 0. *)
Definition PReadAll (buffer : list byte) (count offset : Z)
  : M (bool * Z * list byte) :=
  fun s =>
    let '(ok, found) := source_read E (trace s) count offset in
    let data := firstn (Z.to_nat count) found in
    let bytes_read := if ok then Z.of_nat (length data) else 0 in
    (Val (ok, bytes_read, data ++ skipn (length data) buffer),
     record (EvPReadAll count offset ok data) s).

(** [a + b] on [int64_t]. *)
Definition int64_add (a b : Z) : M Z :=
  match Int64.add a b with
  | Some z => ret z
  | None => undefined
  end.

(** *** The writer's methods *)

(** The loop of [WriteAllCowOps]; [buffer] is the one block-sized buffer the
    function reuses for every operation. *)
Fixpoint WriteAllCowOps_loop (block_size : Z) (converted : list CowOperation)
                             (buffer : list byte) : M bool :=
  match converted with
  | [] => ret true
  | cow_op :: rest =>
      match op cow_op with
      | CowCopy =>
          TEST_AND_RETURN_FALSE
            cow (AddCopy (dst_block cow_op) (src_block cow_op)) ;;
          WriteAllCowOps_loop block_size rest buffer
      | CowReplace =>
          r <- PReadAll buffer block_size
                 (Int64.signed
                    (Int64.unsigned (src_block cow_op * block_size))) ;;
          let '(ok, bytes_read, buffer') := r in
          (* TEST_AND_RETURN_FALSE on the flag of PReadAll *)
          if negb ok then ret false
          else if (bytes_read <=? 0)
                  || negb (Int64.unsigned bytes_read =? block_size)
          then ret false
          else
            TEST_AND_RETURN_FALSE
              cow (AddRawBlocks (dst_block cow_op) buffer' block_size) ;;
            WriteAllCowOps_loop block_size rest buffer'
      end
  end.

Definition WriteAllCowOps (block_size : Z) (converted : list CowOperation)
  : M bool :=
  WriteAllCowOps_loop block_size converted
    (repeat x00 (Z.to_nat block_size)).

(** Lines 88 to 100 of [Init]: the code after the resume handling, reached
    from both branches that fall through it. *)
Definition Init_copy_phase : M bool :=
  TEST_AND_RETURN_FALSE prefs_SetInt64 (-1) ;;
  converted <- convert ;;
  block_size <- get block_size_ ;;
  _ <- WriteAllCowOps block_size converted ;;
  _ <- cow (AddLabel 0) ;;
  TEST_AND_RETURN_FALSE prefs_SetInt64 0 ;;
  ret true.

Definition Init (install_plan : option InstallPlan) (source_may_exist : bool)
  : M bool :=
  match install_plan with
  | None => ret false
  | Some plan =>
      TEST_AND_RETURN_FALSE PartitionWriter_Init source_may_exist ;;
      _ <- OpenCowWriter (is_resume plan) ;;
      TEST_AND_RETURN_FALSE get cow_writer_ ;;
      if is_resume plan then
        r <- prefs_GetInt64 ;;
        match r with
        | None => ret false
        | Some next_op =>
            if next_op <? 0 then
              TEST_AND_RETURN_FALSE cow Initialize ;;
              Init_copy_phase
            else
              TEST_AND_RETURN_FALSE cow (InitializeAppend next_op) ;;
              ret true
        end
      else
        TEST_AND_RETURN_FALSE cow Initialize ;;
        Init_copy_phase
  end.

(** The loop of [PerformZeroOrDiscardOperation]. *)
Fixpoint AddZeroBlocks_each (extents : list Extent) : M bool :=
  match extents with
  | [] => ret true
  | extent :: rest =>
      TEST_AND_RETURN_FALSE
        cow (AddZeroBlocks (start_block extent) (num_blocks extent)) ;;
      AddZeroBlocks_each rest
  end.

Definition PerformZeroOrDiscardOperation (operation : InstallOperation)
  : M bool :=
  AddZeroBlocks_each (dst_extents operation).

(** [error] stands for the pointee of the [ErrorCode*] argument, which the
    function never writes. *)
Definition PerformSourceCopyOperation (operation : InstallOperation)
                                      (error : ErrorCode) : M bool :=
  ret true.

Definition Flush : M bool :=
  r <- prefs_GetInt64 ;;
  match r with
  | None => ret false
  | Some next_op =>
      label <- int64_add next_op 1 ;;
      _ <- cow (AddLabel (Int64.unsigned label)) ;;
      ret true
  end.

(** [next_op_index] is a [size_t]; the store takes an [int64_t]. *)
Definition CheckpointUpdateProgress (next_op_index : Z) : M unit :=
  _ <- prefs_SetInt64 (Int64.signed next_op_index) ;;
  ret tt.

(** [~VABCPartitionWriter] *)
Definition destructor : M unit :=
  _ <- prefs_SetInt64 (-1) ;;
  _ <- cow Finalize ;;
  ret tt.

End Writer.

Arguments ret {A} a s /.
Arguments bind {A B} m k s /.
Arguments undefined {A} s /.
Arguments get {A} field s /.

(** ** Trace predicates *)

(** The state [s] with the calls [w] added to its trace. *)
Definition extend (w : list Event) (s : State) : State :=
  {| block_size_ := block_size_ s;
     partition_update_ := partition_update_ s;
     cow_writer_ := cow_writer_ s;
     prefs := prefs s;
     trace := trace s ++ w |}.

Definition Copy (src dst : Z) : CowOperation :=
  {| op := CowCopy; src_block := src; dst_block := dst |}.

Definition Replace (src dst : Z) : CowOperation :=
  {| op := CowReplace; src_block := src; dst_block := dst |}.

(** The [AddZeroBlocks] calls for the extents that have an answer in
    [oks], in the order of the extents. *)
Definition zero_calls (extents : list Extent) (oks : list bool) : list Event :=
  map (fun p => EvCow (AddZeroBlocks (start_block (fst p)) (num_blocks (fst p)))
                      (snd p))
      (combine extents oks).

(** The calls [WriteAllCowOps] may make: reads of the source, and the two
    writes of block data to the COW writer. *)
Definition copy_phase_write (e : Event) : bool :=
  match e with
  | EvPReadAll _ _ _ _ => true
  | EvCow (AddCopy _ _) _ => true
  | EvCow (AddRawBlocks _ _ _) _ => true
  | _ => false
  end.

(** The calls that come before the copy phase. *)
Definition setup_event (e : Event) : bool :=
  match e with
  | EvPartitionWriterInit _ => true
  | EvOpenCowWriter _ _ => true
  | EvGetInt64 _ => true
  | EvCow Initialize _ => true
  | EvCow (InitializeAppend _) _ => true
  | _ => false
  end.

(** What the converter makes of the partition's operations. *)
Definition converted_ops (E : Collaborators) (s : State) : list CowOperation :=
  ConvertToCowOperations E (operations (partition_update_ s))
                           (merge_operations (partition_update_ s)).

(** The state of a run of [Init] from [s] during its copy phase: the COW
    writer is open, the store holds -1, and the calls [before] were made. *)
Definition copy_phase_state (before : list Event) (s : State) : State :=
  extend before (set_prefs (Some (-1)) (set_cow_writer true s)).

(** The order of the calls [evs] of a run of [Init] from [s] that has a
    copy phase: after calls of the set-up, the store is set to -1; if it
    refuses, nothing follows; if it accepts, the converter is asked, then
    come the calls [w] of [WriteAllCowOps] on the converted operations, then
    label 0 is added, then the store is set to 0. *)
Definition copy_phase_order (E : Collaborators) (s : State)
                            (evs : list Event) : Prop :=
  exists setup ok rest,
    evs = setup ++ EvSetInt64 (-1) ok :: rest
    /\ forallb setup_event setup = true
    /\ (ok = false -> rest = [])
    /\ (ok = true ->
        exists w labelled ok0 streamed,
          rest = EvConvert
                   :: w ++ [EvCow (AddLabel 0) labelled; EvSetInt64 0 ok0]
          /\ forallb copy_phase_write w = true
          /\ WriteAllCowOps E (block_size_ s) (converted_ops E s)
               (copy_phase_state
                  (setup ++ [EvSetInt64 (-1) true; EvConvert]) s)
             = (Val streamed,
                copy_phase_state
                  (setup ++ [EvSetInt64 (-1) true; EvConvert] ++ w) s)).

(** The destination block of a write of block data that the COW writer
    accepted. *)
Definition accepted_write (e : Event) : option Z :=
  match e with
  | EvCow (AddCopy new_block _) true => Some new_block
  | EvCow (AddRawBlocks new_block_start _ _) true => Some new_block_start
  | _ => None
  end.

(** The destination blocks that the calls [w] got into the COW writer, in
    the order of the calls. *)
Fixpoint accepted_writes (w : list Event) : list Z :=
  match w with
  | [] => []
  | e :: rest =>
      match accepted_write e with
      | Some block => block :: accepted_writes rest
      | None => accepted_writes rest
      end
  end.

(** What a call leaves for the next one to rely on: a read that
    succeeded leaves the bytes it found. *)
Definition bytes_read_by (e : Event) : option (list byte) :=
  match e with
  | EvPReadAll _ _ true data => Some data
  | _ => None
  end.

(** In the calls [w], made after a call that left [prev], every
    [AddRawBlocks] writes one block of [block_size] bytes, and these are
    the bytes found by the read made just before it. *)
Fixpoint raw_blocks_follow_reads (block_size : Z) (prev : option (list byte))
                                 (w : list Event) : Prop :=
  match w with
  | [] => True
  | e :: rest =>
      match e with
      | EvCow (AddRawBlocks _ data size) _ =>
          size = block_size
          /\ prev = Some data
          /\ Z.of_nat (length data) = block_size
      | _ => True
      end
      /\ raw_blocks_follow_reads block_size (bytes_read_by e) rest
  end.

(** The calls of [Init] up to [Initialize()], on a path that leads to the
    copy phase; [next_op] is what a resumed run read from the store. *)
Definition copy_phase_setup (plan : InstallPlan) (next_op : Z) : list Event :=
  EvPartitionWriterInit true
    :: EvOpenCowWriter (is_resume plan) true
    :: (if is_resume plan then [EvGetInt64 (Some next_op)] else []).

(** A resumed run takes the path of the copy phase only on a negative
    stored checkpoint. *)
Definition restarts (plan : InstallPlan) (stored : option Z) (next_op : Z)
  : Prop :=
  is_resume plan = true -> stored = Some next_op /\ next_op < 0.

(** The runs of [Init]: for a plan and a stored checkpoint, the calls made,
    the result, and the checkpoint stored afterwards. *)
Inductive Init_run (install_plan : option InstallPlan) (stored : option Z)
  : list Event -> bool -> option Z -> Prop :=
| Init_null_plan :
    install_plan = None ->
    Init_run install_plan stored [] false stored
| Init_base_failed plan :
    install_plan = Some plan ->
    Init_run install_plan stored [EvPartitionWriterInit false] false stored
| Init_no_cow_writer plan :
    install_plan = Some plan ->
    Init_run install_plan stored
      [EvPartitionWriterInit true; EvOpenCowWriter (is_resume plan) false]
      false stored
| Init_unreadable plan :
    install_plan = Some plan ->
    is_resume plan = true ->
    Init_run install_plan stored
      [EvPartitionWriterInit true; EvOpenCowWriter true true; EvGetInt64 None]
      false stored
| Init_appended plan next_op appended :
    install_plan = Some plan ->
    is_resume plan = true ->
    stored = Some next_op ->
    0 <= next_op ->
    Init_run install_plan stored
      [EvPartitionWriterInit true; EvOpenCowWriter true true;
       EvGetInt64 (Some next_op); EvCow (InitializeAppend next_op) appended]
      appended stored
| Init_initialize_failed plan next_op :
    install_plan = Some plan ->
    restarts plan stored next_op ->
    Init_run install_plan stored
      (copy_phase_setup plan next_op ++ [EvCow Initialize false])
      false stored
| Init_reset_refused plan next_op :
    install_plan = Some plan ->
    restarts plan stored next_op ->
    Init_run install_plan stored
      (copy_phase_setup plan next_op
         ++ [EvCow Initialize true; EvSetInt64 (-1) false])
      false stored
| Init_copy_phase_ran plan next_op w labelled r :
    install_plan = Some plan ->
    restarts plan stored next_op ->
    forallb copy_phase_write w = true ->
    Init_run install_plan stored
      (copy_phase_setup plan next_op
         ++ [EvCow Initialize true; EvSetInt64 (-1) true; EvConvert]
         ++ w ++ [EvCow (AddLabel 0) labelled; EvSetInt64 0 r])
      r (Some (if r then 0 else -1)).

(** [cow_writer_] after the calls [evs] of [Init]: what [OpenCowWriter]
    returned, if it was called. *)
Definition writer_after (evs : list Event) (before : bool) : bool :=
  match evs with
  | _ :: EvOpenCowWriter _ opened :: _ => opened
  | _ => before
  end.

(** The calls of a run of [Init] that keeps the log: no [Initialize()], no
    write to the store, no block data, no label. *)
Definition appending_call (e : Event) : bool :=
  match e with
  | EvPartitionWriterInit _ => true
  | EvOpenCowWriter _ _ => true
  | EvGetInt64 _ => true
  | EvCow (InitializeAppend _) _ => true
  | _ => false
  end.

(** The values [Init] may write to the store and the label it may add. *)
Definition bootstrap_value (e : Event) : bool :=
  match e with
  | EvSetInt64 value _ => (value =? -1) || (value =? 0)
  | EvCow (AddLabel label) _ => label =? 0
  | _ => true
  end.

(** A computation that leaves [cow_writer_] as it found it. *)
Definition keeps_cow_writer {A} (m : M A) : Prop :=
  forall s, cow_writer_ (snd (m s)) = cow_writer_ s.

(** ** Concrete collaborators and inputs

    Collaborators whose answers do not depend on the history, used to run
    the writer on examples. *)

Definition scripted (converted : list CowOperation)
                    (readable : bool) (writable : Z -> bool)
                    (accepts : CowCall -> bool)
                    (source : Z -> Z -> bool * list byte)
                    (opens : bool) : Collaborators :=
  {| base_Init := fun _ _ => true;
     open_cow_writer := fun _ _ => opens;
     prefs_readable := fun _ => readable;
     prefs_writable := fun _ v => writable v;
     ConvertToCowOperations := fun _ _ => converted;
     source_read := fun _ count offset => source count offset;
     cow_reply := fun _ c => accepts c |}.

(** A source device whose every byte is [xff]. *)
Definition full_source (count offset : Z) : bool * list byte :=
  (true, repeat xff (Z.to_nat count)).

(** A source device that ends after two bytes. *)
Definition short_source (count offset : Z) : bool * list byte :=
  (true, [xff; xff]).

Definition is_AddCopy (c : CowCall) : bool :=
  match c with AddCopy _ _ => true | _ => false end.

Definition is_AddLabel (c : CowCall) : bool :=
  match c with AddLabel _ => true | _ => false end.

Definition is_Initialize (c : CowCall) : bool :=
  match c with Initialize => true | _ => false end.

(** Collaborators that never fail; the converter gives
    [Copy(10, 0); Replace(20, 1)]. *)
Definition cooperative : Collaborators :=
  scripted [Copy 10 0; Replace 20 1] true (fun _ => true) (fun _ => true)
           full_source true.

(** A COW writer that refuses every [AddCopy]. *)
Definition refusing_copies : Collaborators :=
  scripted [Copy 10 0; Replace 20 1] true (fun _ => true)
           (fun c => negb (is_AddCopy c)) full_source true.

(** A COW writer that refuses every [AddLabel]. *)
Definition refusing_labels : Collaborators :=
  scripted [] true (fun _ => true) (fun c => negb (is_AddLabel c))
           full_source true.

(** A COW writer that refuses [Initialize]: [Init] fails with the COW
    writer open. *)
Definition refusing_initialize : Collaborators :=
  scripted [] true (fun _ => true) (fun c => negb (is_Initialize c))
           full_source true.

(** A store that refuses every write. *)
Definition refusing_writes : Collaborators :=
  scripted [] true (fun _ => false) (fun _ => true) full_source true.

(** A device on which no COW writer can be opened. *)
Definition no_cow_writer : Collaborators :=
  scripted [] true (fun _ => true) (fun _ => true) full_source false.

(** A source device that ends early. *)
Definition short_reads : Collaborators :=
  scripted [Replace 20 1; Copy 10 0] true (fun _ => true) (fun _ => true)
           short_source true.

Definition empty_update : PartitionUpdate :=
  {| operations := []; merge_operations := [] |}.

(** A writer as its constructor leaves it, with block size [bs] and the
    store holding [checkpoint]. *)
Definition fresh_writer (bs : Z) (checkpoint : option Z) : State :=
  {| block_size_ := bs;
     partition_update_ := empty_update;
     cow_writer_ := false;
     prefs := checkpoint;
     trace := [] |}.

(** A writer whose [cow_writer_] has been opened. *)
Definition opened_writer (bs : Z) (checkpoint : option Z) : State :=
  set_cow_writer true (fresh_writer bs checkpoint).

Definition fresh_plan : InstallPlan := {| is_resume := false |}.
Definition resume_plan : InstallPlan := {| is_resume := true |}.

Definition two_extents : InstallOperation :=
  {| op_type := ZERO;
     src_extents := [];
     dst_extents := [ {| start_block := 8; num_blocks := 2 |};
                      {| start_block := 32; num_blocks := 4 |} ] |}.

(** The calls of a fresh [Init] with [cooperative] and block size 4. *)
Definition fresh_start_calls : list Event :=
  [EvPartitionWriterInit true; EvOpenCowWriter false true;
   EvCow Initialize true; EvSetInt64 (-1) true; EvConvert;
   EvCow (AddCopy 0 10) true;
   EvPReadAll 4 80 true [xff; xff; xff; xff];
   EvCow (AddRawBlocks 1 [xff; xff; xff; xff] 4) true;
   EvCow (AddLabel 0) true; EvSetInt64 0 true].

(** The calls of an [Init] that gets no COW writer. *)
Definition unopened_Init_calls : list Event :=
  [EvPartitionWriterInit true; EvOpenCowWriter false false].

(** The calls of an [Init] that fails at [Initialize()]. *)
Definition failed_Init_calls : list Event :=
  [EvPartitionWriterInit true; EvOpenCowWriter false true;
   EvCow Initialize false].

(** Collaborators that never fail, with nothing to convert. *)
Definition plain : Collaborators :=
  scripted [] true (fun _ => true) (fun _ => true) full_source true.

(** A store that accepts -1 and refuses every other value. *)
Definition refusing_progress : Collaborators :=
  scripted [] true (fun v => v =? -1) (fun _ => true) full_source true.

(** The calls of a fresh [Init] with nothing to convert, the last of them
    answered by [stored]. *)
Definition empty_start_calls (stored : bool) : list Event :=
  [EvPartitionWriterInit true; EvOpenCowWriter false true;
   EvCow Initialize true; EvSetInt64 (-1) true; EvConvert;
   EvCow (AddLabel 0) true; EvSetInt64 0 stored].

(** The calls of a resumed [Init] that finds the checkpoint at -1, with
    nothing to convert. *)
Definition restart_calls : list Event :=
  [EvPartitionWriterInit true; EvOpenCowWriter true true;
   EvGetInt64 (Some (-1)); EvCow Initialize true; EvSetInt64 (-1) true;
   EvConvert; EvCow (AddLabel 0) true; EvSetInt64 0 true].

(** The calls of a resumed [Init] with the checkpoint at 3. *)
Definition resumed_calls : list Event :=
  [EvPartitionWriterInit true; EvOpenCowWriter true true;
   EvGetInt64 (Some 3); EvCow (InitializeAppend 3) true].

(** ** Tactics *)

(** From [trace s' = trace s ++ evs], with [trace s'] known, what [evs]
    is. *)
Ltac new_events H :=
  cbn [trace record set_cow_writer set_prefs extend] in H;
  rewrite <- ?app_assoc in H;
  apply app_inv_head in H.

(** ** Traces and frames *)

Lemma record_extend (e : Event) (s : State) : record e s = extend [e] s.
Proof. reflexivity. Qed.

Lemma extend_extend (w1 w2 : list Event) (s : State) :
  extend w2 (extend w1 s) = extend (w1 ++ w2) s.
Proof. unfold extend; simpl. now rewrite app_assoc. Qed.

Lemma extend_nil (s : State) : extend [] s = s.
Proof. destruct s; unfold extend; simpl. now rewrite app_nil_r. Qed.

Lemma extend_cons (e : Event) (w : list Event) (s : State) :
  extend w (record e s) = extend (e :: w) s.
Proof. rewrite record_extend, extend_extend. reflexivity. Qed.

Lemma set_prefs_extend (v : option Z) (w : list Event) (s : State) :
  set_prefs v (extend w s) = extend w (set_prefs v s).
Proof. reflexivity. Qed.

Lemma set_cow_writer_extend (b : bool) (w : list Event) (s : State) :
  set_cow_writer b (extend w s) = extend w (set_cow_writer b s).
Proof. reflexivity. Qed.

Create Rewrite HintDb state.

#[local] Hint Rewrite record_extend set_prefs_extend set_cow_writer_extend
  extend_extend : state.

Lemma cow_run (E : Collaborators) (c : CowCall) (s : State) :
  cow_writer_ s = true ->
  cow E c s = (Val (cow_reply E (trace s) c),
               record (EvCow c (cow_reply E (trace s) c)) s).
Proof. intros Hw. unfold cow. now rewrite Hw. Qed.

Lemma cow_keeps_prefs (E : Collaborators) (c : CowCall) (s : State) :
  prefs (snd (cow E c s)) = prefs s.
Proof. unfold cow. now destruct (cow_writer_ s). Qed.

(** ** Streaming the copy phase: [WriteAllCowOps] *)

Lemma PReadAll_run (E : Collaborators) (buffer : list byte) (count offset : Z)
                   (s : State) :
  PReadAll E buffer count offset s
  = let ok := fst (source_read E (trace s) count offset) in
    let data :=
      firstn (Z.to_nat count) (snd (source_read E (trace s) count offset)) in
    (Val (ok, (if ok then Z.of_nat (length data) else 0),
          data ++ skipn (length data) buffer),
     record (EvPReadAll count offset ok data) s).
Proof.
  unfold PReadAll. now destruct (source_read E (trace s) count offset).
Qed.

Lemma WriteAllCowOps_loop_Copy (E : Collaborators) (block_size src dst : Z)
    (rest : list CowOperation) (buffer : list byte) (s : State) :
  WriteAllCowOps_loop E block_size (Copy src dst :: rest) buffer s
  = (TEST_AND_RETURN_FALSE cow E (AddCopy dst src) ;;
     WriteAllCowOps_loop E block_size rest buffer) s.
Proof. reflexivity. Qed.

Lemma WriteAllCowOps_loop_Replace (E : Collaborators) (block_size src dst : Z)
    (rest : list CowOperation) (buffer : list byte) (s : State) :
  WriteAllCowOps_loop E block_size (Replace src dst :: rest) buffer s
  = let offset := Int64.signed (Int64.unsigned (src * block_size)) in
    let ok := fst (source_read E (trace s) block_size offset) in
    let data :=
      firstn (Z.to_nat block_size)
             (snd (source_read E (trace s) block_size offset)) in
    let s2 := record (EvPReadAll block_size offset ok data) s in
    let buffer' := data ++ skipn (length data) buffer in
    if negb ok then (Val false, s2)
    else if (Z.of_nat (length data) <=? 0)
            || negb (Int64.unsigned (Z.of_nat (length data)) =? block_size)
    then (Val false, s2)
    else (TEST_AND_RETURN_FALSE cow E (AddRawBlocks dst buffer' block_size) ;;
          WriteAllCowOps_loop E block_size rest buffer') s2.
Proof.
  cbn [WriteAllCowOps_loop Replace op src_block dst_block bind].
  rewrite PReadAll_run. cbv zeta.
  destruct (fst (source_read E (trace s) block_size
                   (Int64.signed (Int64.unsigned (src * block_size)))));
    cbn [negb]; [|reflexivity].
  destruct (_ || _); reflexivity.
Qed.

Lemma CowOperation_cases (cow_op : CowOperation) :
  (exists src dst, cow_op = Copy src dst)
  \/ (exists src dst, cow_op = Replace src dst).
Proof.
  destruct cow_op as [[] src dst]; [left|right]; exists src, dst; reflexivity.
Qed.

Lemma buffer_refill_length (data buffer : list byte) (n : nat) :
  length buffer = n ->
  length (firstn n data ++ skipn (length (firstn n data)) buffer) = n.
Proof.
  intros <-. rewrite length_app, length_skipn, length_firstn. lia.
Qed.

(** Every run of the loop on an open COW writer ends with a result, and
    adds only copy-phase writes to the trace. *)
Lemma WriteAllCowOps_loop_run (E : Collaborators) (block_size : Z)
    (converted : list CowOperation) :
  forall buffer s, cow_writer_ s = true ->
  exists r w,
    WriteAllCowOps_loop E block_size converted buffer s = (Val r, extend w s)
    /\ forallb copy_phase_write w = true.
Proof.
  induction converted as [|cow_op rest IH]; intros buffer s Hw.
  - exists true, []. simpl. now rewrite extend_nil.
  - destruct (CowOperation_cases cow_op)
      as [(src & dst & ->) | (src & dst & ->)].
    + rewrite WriteAllCowOps_loop_Copy. cbn [bind].
      rewrite (cow_run E _ s Hw).
      destruct (cow_reply E (trace s) _) eqn:Hok.
      * destruct (IH buffer (record (EvCow (AddCopy dst src) true) s) Hw)
          as (r & w & Hrun & Hall).
        eexists r, (_ :: w). rewrite Hrun, extend_cons. split; [reflexivity|].
        simpl. exact Hall.
      * eexists false, [_]. rewrite record_extend. split; reflexivity.
    + rewrite WriteAllCowOps_loop_Replace. cbv zeta.
      set (offset := Int64.signed (Int64.unsigned (src * block_size))).
      set (ok := fst (source_read E (trace s) block_size offset)).
      set (data := firstn _ _).
      set (s2 := record _ s).
      assert (Hw2 : cow_writer_ s2 = true) by exact Hw.
      destruct (negb ok).
      { eexists false, [_]. unfold s2. rewrite record_extend.
        split; reflexivity. }
      destruct (_ || _).
      { eexists false, [_]. unfold s2. rewrite record_extend.
        split; reflexivity. }
      cbn [bind]. rewrite (cow_run E _ s2 Hw2).
      destruct (cow_reply E (trace s2) _) eqn:Hok.
      * destruct (IH (data ++ skipn (length data) buffer)
                     (record (EvCow (AddRawBlocks dst
                        (data ++ skipn (length data) buffer) block_size) true) s2)
                     Hw2) as (r & w & Hrun & Hall).
        eexists r, (_ :: _ :: w). rewrite Hrun, extend_cons.
        unfold s2. rewrite extend_cons. split; [reflexivity|].
        simpl. exact Hall.
      * eexists false, [_; _]. rewrite record_extend. unfold s2.
        rewrite record_extend, extend_extend. split; reflexivity.
Qed.

(** When the loop gets through a list of operations, what comes after them
    runs from the state reached, on a buffer that is still one block long. *)
Lemma WriteAllCowOps_loop_app (E : Collaborators) (block_size : Z)
    (pre : list CowOperation) :
  forall buffer s s1,
    length buffer = Z.to_nat block_size ->
    cow_writer_ s = true ->
    WriteAllCowOps_loop E block_size pre buffer s = (Val true, s1) ->
    exists buffer1,
      length buffer1 = Z.to_nat block_size
      /\ cow_writer_ s1 = true
      /\ forall post,
           WriteAllCowOps_loop E block_size (pre ++ post) buffer s
           = WriteAllCowOps_loop E block_size post buffer1 s1.
Proof.
  induction pre as [|cow_op rest IH]; intros buffer s s1 Hlen Hw Hrun.
  - simpl in Hrun. injection Hrun as <-. now exists buffer.
  - destruct (CowOperation_cases cow_op)
      as [(src & dst & ->) | (src & dst & ->)].
    + rewrite WriteAllCowOps_loop_Copy in Hrun. cbn [bind] in Hrun.
      rewrite (cow_run E _ s Hw) in Hrun.
      destruct (cow_reply E (trace s) _) eqn:Hok; [|discriminate Hrun].
      eapply IH in Hrun; [|exact Hlen|exact Hw].
      destruct Hrun as (buffer1 & Hlen1 & Hw1 & Happ).
      exists buffer1. repeat split; trivial. intros post.
      rewrite <- app_comm_cons, WriteAllCowOps_loop_Copy. cbn [bind].
      rewrite (cow_run E _ s Hw), Hok. apply Happ.
    + rewrite WriteAllCowOps_loop_Replace in Hrun. cbv zeta in Hrun.
      destruct (negb _) eqn:Hread; [discriminate Hrun|].
      destruct (_ || _) eqn:Hfull; [discriminate Hrun|].
      cbn [bind] in Hrun.
      match type of Hrun with
      | context [cow E ?c ?s2] =>
          assert (Hw2 : cow_writer_ s2 = true) by exact Hw;
          rewrite (cow_run E c s2 Hw2) in Hrun;
          destruct (cow_reply E (trace s2) c) eqn:Hok; [|discriminate Hrun]
      end.
      match type of Hrun with
      | WriteAllCowOps_loop _ _ _ ?b _ = _ =>
          assert (Hlen' : length b = Z.to_nat block_size)
            by (apply buffer_refill_length, Hlen)
      end.
      eapply IH in Hrun; [|exact Hlen'|exact Hw].
      destruct Hrun as (buffer1 & Hlen1 & Hw1 & Happ).
      exists buffer1. repeat split; trivial. intros post.
      rewrite <- app_comm_cons, WriteAllCowOps_loop_Replace. cbv zeta.
      rewrite Hread, Hfull. cbn [bind].
      rewrite (cow_run E _ _ Hw2), Hok. apply Happ.
Qed.

(** An offset that fits an [off_t] goes through the unsigned product and
    the conversion at the call unchanged. *)
Lemma signed_unsigned_small (z : Z) :
  0 <= z <= Int64.max_signed ->
  Int64.signed (Int64.unsigned z) = z.
Proof.
  intros Hz. unfold Int64.signed, Int64.unsigned, Int64.modulus,
    Int64.max_signed in *.
  rewrite Z.mod_mod by lia. rewrite Z.mod_small by lia.
  destruct (z <=? 9223372036854775807) eqn:Hle; [reflexivity|].
  apply Z.leb_gt in Hle. lia.
Qed.

(** A label that is not negative reaches the COW writer unchanged. *)
Lemma unsigned_small (z : Z) :
  0 <= z <= Int64.max_signed -> Int64.unsigned z = z.
Proof.
  intros Hz. unfold Int64.unsigned, Int64.modulus, Int64.max_signed in *.
  apply Z.mod_small. lia.
Qed.

Lemma size_t_read_check (block_size : Z) (data : list byte) :
  0 <= block_size < Int64.modulus ->
  (length data <= Z.to_nat block_size)%nat ->
  (Z.of_nat (length data) <=? 0)
  || negb (Int64.unsigned (Z.of_nat (length data)) =? block_size)
  = negb ((0 <? Z.of_nat (length data))
          && (Z.of_nat (length data) =? block_size)).
Proof.
  intros Hbs Hlen. unfold Int64.unsigned.
  rewrite Z.mod_small by lia.
  destruct (Z.of_nat (length data) <=? 0) eqn:H0;
    destruct (0 <? Z.of_nat (length data)) eqn:H1; try reflexivity; lia.
Qed.

(** C7.  Take a run of [WriteAllCowOps], on an open COW writer, that gets to
    a [Replace(src, dst)]: the operations [pre] before it went through and
    left the state [s1].  The block size is a [size_t] and the byte offset
    [src * block_size] fits an [off_t].  Then the next call is one read of
    [block_size] bytes at offset [src * block_size].  If that read fails,
    finds no byte, or finds fewer bytes than a block, [WriteAllCowOps]
    returns failure with that read as its last call, so nothing is written
    to the COW writer for the operation.  If it finds a whole block [data],
    the call after it is [AddRawBlocks(dst, data, block_size)], and a
    refusal of that call ends the run with failure. *)
Theorem WriteAllCowOps_Replace
    (E : Collaborators) (block_size src dst : Z)
    (pre post : list CowOperation) (s s1 : State)
    (Hopen : cow_writer_ s = true)
    (Hsize : 0 <= block_size < Int64.modulus)
    (Hoffset : 0 <= src * block_size <= Int64.max_signed)
    (Hpre : WriteAllCowOps E block_size pre s = (Val true, s1)) :
  let ok := fst (source_read E (trace s1) block_size (src * block_size)) in
  let data :=
    firstn (Z.to_nat block_size)
           (snd (source_read E (trace s1) block_size (src * block_size))) in
  let s2 := record (EvPReadAll block_size (src * block_size) ok data) s1 in
  let accepted := cow_reply E (trace s2) (AddRawBlocks dst data block_size) in
  (ok = false \/ data = [] \/ Z.of_nat (length data) < block_size ->
   WriteAllCowOps E block_size (pre ++ Replace src dst :: post) s
   = (Val false, s2))
  /\ (ok = true /\ data <> [] /\ Z.of_nat (length data) = block_size ->
      exists r w,
        WriteAllCowOps E block_size (pre ++ Replace src dst :: post) s
        = (Val r,
           extend (EvCow (AddRawBlocks dst data block_size) accepted :: w) s2)
        /\ forallb copy_phase_write w = true
        /\ (accepted = false -> r = false /\ w = [])).
Proof.
  intros ok data s2 accepted.
  unfold WriteAllCowOps in *.
  destruct (WriteAllCowOps_loop_app E block_size pre _ s s1
              (repeat_length _ _) Hopen Hpre) as (buffer1 & Hlen1 & Hw1 & Happ).
  rewrite Happ, WriteAllCowOps_loop_Replace. cbv zeta.
  assert (Hoff : Int64.signed (Int64.unsigned (src * block_size))
                 = src * block_size)
    by (apply signed_unsigned_small; exact Hoffset).
  rewrite Hoff. fold ok. fold data. fold s2.
  assert (Hdata : (length data <= Z.to_nat block_size)%nat)
    by (unfold data; rewrite length_firstn; lia).
  rewrite (size_t_read_check block_size data Hsize Hdata).
  assert (Hw2 : cow_writer_ s2 = true) by exact Hw1.
  split.
  - intros Hshort. destruct ok; [|reflexivity]. cbn [negb].
    destruct Hshort as [Hno | [Hnil | Hlt]]; [discriminate Hno| |].
    + rewrite Hnil. reflexivity.
    + replace (Z.of_nat (length data) =? block_size) with false
        by (symmetry; apply Z.eqb_neq; lia).
      now rewrite andb_false_r.
  - intros (Hok & Hnonempty & Hfull). rewrite Hok. cbn [negb].
    replace (0 <? Z.of_nat (length data)) with true
      by (symmetry; apply Z.ltb_lt; destruct data; [congruence|simpl; lia]).
    replace (Z.of_nat (length data) =? block_size) with true
      by (symmetry; apply Z.eqb_eq; exact Hfull).
    cbn [andb negb bind].
    assert (Hskip : data ++ skipn (length data) buffer1 = data).
    { rewrite skipn_all2 by lia. apply app_nil_r. }
    rewrite Hskip, (cow_run E _ s2 Hw2). fold accepted.
    destruct accepted eqn:Hacc.
    + destruct (WriteAllCowOps_loop_run E block_size post data
                  (record (EvCow (AddRawBlocks dst data block_size) true) s2)
                  Hw2) as (r & w & Hrun & Hall).
      exists r, w. rewrite Hrun, extend_cons. repeat split; trivial; discriminate.
    + exists false, []. rewrite record_extend. repeat split; trivial.
Qed.

Lemma WriteAllCowOps_Replace_witness :
  (cow_writer_ (opened_writer 4 (Some (-1))) = true
   /\ 0 <= 4 < Int64.modulus
   /\ 0 <= 20 * 4 <= Int64.max_signed
   /\ WriteAllCowOps cooperative 4 [Copy 10 0] (opened_writer 4 (Some (-1)))
      = (Val true, extend [EvCow (AddCopy 0 10) true]
                          (opened_writer 4 (Some (-1)))))
  /\ exists r w,
       WriteAllCowOps cooperative 4 ([Copy 10 0] ++ Replace 20 1 :: [])
                      (opened_writer 4 (Some (-1)))
       = (Val r,
          extend (EvCow (AddRawBlocks 1 [xff; xff; xff; xff] 4) true :: w)
                 (extend [EvCow (AddCopy 0 10) true;
                          EvPReadAll 4 80 true [xff; xff; xff; xff]]
                         (opened_writer 4 (Some (-1)))))
       /\ forallb copy_phase_write w = true
       /\ (true = false -> r = false /\ w = []).
Proof.
  assert (Hsize : 0 <= 4 < Int64.modulus) by (unfold Int64.modulus; lia).
  assert (Hoffset : 0 <= 20 * 4 <= Int64.max_signed)
    by (unfold Int64.max_signed; lia).
  split; [repeat split; try reflexivity; lia|].
  apply (WriteAllCowOps_Replace cooperative 4 20 1 [Copy 10 0] []
           (opened_writer 4 (Some (-1)))
           (extend [EvCow (AddCopy 0 10) true] (opened_writer 4 (Some (-1))))
           eq_refl Hsize Hoffset eq_refl).
  repeat split; discriminate.
Defined.

(** A source that ends after two bytes of a four-byte block: the read is
    the only call, and the [Copy] behind it is not reached. *)
Example WriteAllCowOps_short_read :
  WriteAllCowOps short_reads 4 [Replace 20 1; Copy 10 0]
    (opened_writer 4 (Some (-1)))
  = (Val false,
     extend [EvPReadAll 4 80 true [xff; xff]] (opened_writer 4 (Some (-1)))).
Proof. reflexivity. Qed.

(** ** Init *)

(** What the code after the resume handling does, from a state with an
    open COW writer. *)
Lemma Init_copy_phase_run (E : Collaborators) (s : State) :
  cow_writer_ s = true ->
  exists ok rest r s',
    Init_copy_phase E s = (Val r, s')
    /\ trace s' = trace s ++ EvSetInt64 (-1) ok :: rest
    /\ (ok = false -> rest = [] /\ r = false /\ prefs s' = prefs s)
    /\ (ok = true ->
        exists w labelled streamed,
          rest = EvConvert :: w ++ [EvCow (AddLabel 0) labelled; EvSetInt64 0 r]
          /\ forallb copy_phase_write w = true
          /\ prefs s' = Some (if r then 0 else -1)
          /\ WriteAllCowOps E (block_size_ s) (converted_ops E s)
               (extend [EvSetInt64 (-1) true; EvConvert]
                       (set_prefs (Some (-1)) s))
             = (Val streamed,
                extend ([EvSetInt64 (-1) true; EvConvert] ++ w)
                       (set_prefs (Some (-1)) s))).
Proof.
  intros Hw.
  assert (Hstream : exists streamed w,
    forallb copy_phase_write w = true
    /\ WriteAllCowOps E (block_size_ s) (converted_ops E s)
         (extend [EvSetInt64 (-1) true; EvConvert] (set_prefs (Some (-1)) s))
       = (Val streamed,
          extend ([EvSetInt64 (-1) true; EvConvert] ++ w)
                 (set_prefs (Some (-1)) s))).
  { destruct (WriteAllCowOps_loop_run E (block_size_ s) (converted_ops E s)
                (repeat x00 (Z.to_nat (block_size_ s)))
                (extend [EvSetInt64 (-1) true; EvConvert]
                        (set_prefs (Some (-1)) s)) Hw)
      as (streamed & w & Hrun & Hall).
    exists streamed, w. split; [exact Hall|].
    unfold WriteAllCowOps. rewrite Hrun, extend_extend. reflexivity. }
  destruct Hstream as (streamed & w & Hall & Hstream).
  unfold Init_copy_phase, prefs_SetInt64 at 1. cbn [bind].
  destruct (prefs_writable E (trace s) (-1)) eqn:Hset.
  - unfold convert. cbn [bind get]. autorewrite with state.
    match goal with
    | |- context [WriteAllCowOps E ?bs ?ops ?st] =>
        change (WriteAllCowOps E bs ops st)
          with (WriteAllCowOps E (block_size_ s) (converted_ops E s)
                  (extend [EvSetInt64 (-1) true; EvConvert]
                          (set_prefs (Some (-1)) s)))
    end.
    rewrite Hstream. rewrite cow_run by exact Hw.
    set (labelled := cow_reply E _ _).
    unfold prefs_SetInt64.
    destruct (prefs_writable E _ 0) eqn:Hset0;
      [exists true; eexists; exists true; eexists
      |exists true; eexists; exists false; eexists];
      (split; [reflexivity|]);
      (split; [|split; [discriminate|]]);
      try (cbn [trace record extend set_prefs app];
           rewrite <- ?app_assoc; reflexivity);
      intros _; exists w, labelled, streamed; (split; [reflexivity|]);
      (split; [exact Hall|]); split; reflexivity.
  - exists false, [], false. eexists. split; [reflexivity|].
    split; [reflexivity|]. split; [auto|discriminate].
Qed.

(** [Init] on a plan, step by step up to the resume handling. *)
Lemma Init_unfold (E : Collaborators) (plan : InstallPlan)
    (source_may_exist : bool) (s : State) :
  Init E (Some plan) source_may_exist s
  = let based := base_Init E (trace s) source_may_exist in
    let s1 := record (EvPartitionWriterInit based) s in
    if based then
      let opened := open_cow_writer E (trace s1) (is_resume plan) in
      let s2 := record (EvOpenCowWriter (is_resume plan) opened)
                       (set_cow_writer opened s1) in
      if opened then
        if is_resume plan then
          let r := if prefs_readable E (trace s2) then prefs s2 else None in
          let s3 := record (EvGetInt64 r) s2 in
          match r with
          | None => (Val false, s3)
          | Some next_op =>
              if next_op <? 0 then
                (TEST_AND_RETURN_FALSE cow E Initialize ;; Init_copy_phase E) s3
              else
                (TEST_AND_RETURN_FALSE cow E (InitializeAppend next_op) ;;
                 ret true) s3
          end
        else (TEST_AND_RETURN_FALSE cow E Initialize ;; Init_copy_phase E) s2
      else (Val false, s2)
    else (Val false, s1).
Proof.
  unfold Init, PartitionWriter_Init, OpenCowWriter, prefs_GetInt64.
  cbn [bind]. cbv zeta.
  destruct (base_Init E (trace s) source_may_exist); [|reflexivity].
  cbn [bind get cow_writer_ record set_cow_writer].
  destruct (open_cow_writer E _ (is_resume plan)); [|reflexivity].
  destruct (is_resume plan); [|reflexivity].
  cbn [bind].
  destruct (if prefs_readable E _ then _ else None) as [next_op|];
    [|reflexivity].
  destruct (next_op <? 0); reflexivity.
Qed.

(** [Initialize()] followed by the copy phase, the path of a fresh start
    and of a resume before the copy phase was done, from the state that
    [Init] started in [s0] has reached with the calls [setup]: either
    [Initialize()] fails and is the last call, or the calls are those of a
    copy phase, in its order. *)
Lemma Initialize_then_copy_phase (E : Collaborators) (s0 : State)
    (setup : list Event) (r : Res bool) (s' : State) (evs : list Event) :
  forallb setup_event setup = true ->
  (TEST_AND_RETURN_FALSE cow E Initialize ;; Init_copy_phase E)
    (extend setup (set_cow_writer true s0)) = (r, s') ->
  trace s' = trace s0 ++ evs ->
  evs = setup ++ [EvCow Initialize false] \/ copy_phase_order E s0 evs.
Proof.
  intros Hsetup Hrun Htrace.
  cbn [bind] in Hrun. rewrite cow_run in Hrun by reflexivity.
  destruct (cow_reply E _ Initialize) eqn:Hinit.
  - right. autorewrite with state in Hrun.
    match type of Hrun with
    | Init_copy_phase E ?s4 = _ =>
        destruct (Init_copy_phase_run E s4 eq_refl)
          as (ok & rest & r' & s'' & Hrun' & Htrace' & Hfail & Hok)
    end.
    rewrite Hrun' in Hrun. injection Hrun as <- <-.
    rewrite Htrace' in Htrace. new_events Htrace. subst evs.
    exists (setup ++ [EvCow Initialize true]), ok, rest.
    split; [now rewrite <- app_assoc|].
    split; [rewrite forallb_app, Hsetup; reflexivity|].
    split; [intros H; now destruct (Hfail H)|].
    intros H.
    destruct (Hok H) as (w & labelled & streamed & -> & Hall & _ & Hst).
    exists w, labelled, r', streamed.
    split; [reflexivity|]. split; [exact Hall|].
    autorewrite with state in Hst. exact Hst.
  - left. injection Hrun as <- <-. new_events Htrace. now subst evs.
Qed.

(** C2.  Whenever a run of [Init] gets to the copy phase, that is, whenever
    [Initialize()] was called and succeeded, the calls of the run come in
    this order: calls of the set-up only, then the write of -1 to the store;
    and, once the store has taken the -1, the conversion, the calls by which
    [WriteAllCowOps] streams the converted operations, label 0, and the
    write of 0 to the store.  No block data reaches the COW writer before
    the store has taken the -1. *)
Theorem Init_copy_phase_order
    (E : Collaborators) (install_plan : option InstallPlan)
    (source_may_exist : bool) (s s' : State) (r : Res bool)
    (evs : list Event)
    (Hrun : Init E install_plan source_may_exist s = (r, s'))
    (Htrace : trace s' = trace s ++ evs)
    (Hreached : In (EvCow Initialize true) evs) :
  copy_phase_order E s evs.
Proof.
  destruct install_plan as [plan|].
  2:{ injection Hrun as <- <-. rewrite <- (app_nil_r (trace s)) in Htrace at 1.
      apply app_inv_head in Htrace. subst evs. destruct Hreached. }
  rewrite Init_unfold in Hrun. cbv zeta in Hrun.
  destruct (base_Init E (trace s) source_may_exist).
  2:{ injection Hrun as <- <-. new_events Htrace. subst evs.
      simpl in Hreached. intuition discriminate. }
  destruct (open_cow_writer E _ (is_resume plan)) eqn:Hopen.
  2:{ injection Hrun as <- <-. new_events Htrace. subst evs.
      simpl in Hreached. intuition discriminate. }
  destruct (is_resume plan).
  - destruct (if prefs_readable E _ then _ else None) as [next_op|] eqn:Hget.
    2:{ injection Hrun as <- <-. new_events Htrace. subst evs.
        simpl in Hreached. intuition discriminate. }
    destruct (next_op <? 0).
    + autorewrite with state in Hrun. cbn [app] in Hrun.
      eapply Initialize_then_copy_phase in Hrun;
        try reflexivity; try exact Htrace.
      destruct Hrun as [-> | Horder]; [|exact Horder].
      simpl in Hreached. intuition discriminate.
    + cbn [bind] in Hrun. rewrite cow_run in Hrun by reflexivity.
      destruct (cow_reply E _ _); injection Hrun as <- <-;
        new_events Htrace; subst evs; simpl in Hreached;
        intuition discriminate.
  - autorewrite with state in Hrun. cbn [app] in Hrun.
    eapply Initialize_then_copy_phase in Hrun;
      try reflexivity; try exact Htrace.
    destruct Hrun as [-> | Horder]; [|exact Horder].
    simpl in Hreached. intuition discriminate.
Qed.

Lemma Init_copy_phase_order_witness :
  (Init cooperative (Some fresh_plan) true (fresh_writer 4 None)
   = (Val true,
      set_prefs (Some 0) (extend fresh_start_calls (opened_writer 4 None)))
   /\ trace (set_prefs (Some 0)
               (extend fresh_start_calls (opened_writer 4 None)))
      = trace (fresh_writer 4 None) ++ fresh_start_calls
   /\ In (EvCow Initialize true) fresh_start_calls)
  /\ copy_phase_order cooperative (fresh_writer 4 None) fresh_start_calls.
Proof.
  assert (Hin : In (EvCow Initialize true) fresh_start_calls)
    by (simpl; tauto).
  split; [split; [reflexivity|split; [reflexivity|exact Hin]]|].
  exact (Init_copy_phase_order cooperative (Some fresh_plan) true
           (fresh_writer 4 None) _ (Val true) fresh_start_calls
           eq_refl eq_refl Hin).
Defined.

(** C3.  Take a run of [Init] on a resumed plan that gets to read the
    checkpoint, with answer [r].  If the read failed, [Init] returns false
    and calls nothing more.  If it read a negative value, the next call is
    [Initialize()]; when that fails [Init] returns false, and when it
    succeeds the rest of the run is the copy phase.  If it read a value
    [next_op >= 0], the one remaining call is [InitializeAppend(next_op)],
    [Init] returns its answer, so true on success, and the stored
    checkpoint is as before: the converter and the source are not called,
    no label is added and the store is not written. *)
Theorem Init_resume
    (E : Collaborators) (plan : InstallPlan) (source_may_exist : bool)
    (s s' : State) (res : Res bool) (r : option Z) (tl : list Event)
    (Hresume : is_resume plan = true)
    (Hrun : Init E (Some plan) source_may_exist s = (res, s'))
    (Htrace : trace s' = trace s ++ EvPartitionWriterInit true
                                 :: EvOpenCowWriter true true
                                 :: EvGetInt64 r :: tl) :
  match r with
  | None => res = Val false /\ tl = []
  | Some next_op =>
      if next_op <? 0 then
        exists initialized rest,
          tl = EvCow Initialize initialized :: rest
          /\ (initialized = false -> res = Val false /\ rest = [])
          /\ (initialized = true ->
              Init_copy_phase E
                (extend [EvPartitionWriterInit true; EvOpenCowWriter true true;
                         EvGetInt64 (Some next_op); EvCow Initialize true]
                        (set_cow_writer true s))
              = (res, s'))
      else
        exists appended,
          tl = [EvCow (InitializeAppend next_op) appended]
          /\ res = Val appended
          /\ prefs s' = prefs s
  end.
Proof.
  rewrite Init_unfold in Hrun. cbv zeta in Hrun. rewrite Hresume in Hrun.
  destruct (base_Init E (trace s) source_may_exist).
  2:{ injection Hrun as <- <-. new_events Htrace. discriminate Htrace. }
  destruct (open_cow_writer E _ true) eqn:Hopen.
  2:{ injection Hrun as <- <-. new_events Htrace. discriminate Htrace. }
  destruct (if prefs_readable E _ then _ else None) as [next_op|] eqn:Hget.
  - destruct (next_op <? 0) eqn:Hneg.
    + cbn [bind] in Hrun. rewrite cow_run in Hrun by reflexivity.
      destruct (cow_reply E _ Initialize) eqn:Hinit.
      * match type of Hrun with
        | Init_copy_phase E ?s4 = _ =>
            destruct (Init_copy_phase_run E s4 eq_refl)
              as (ok & rest' & r' & s'' & Hrun' & Htrace' & _)
        end.
        pose proof Hrun as Hcopy.
        rewrite Hrun' in Hrun. injection Hrun as <- <-.
        rewrite Htrace' in Htrace. new_events Htrace.
        injection Htrace as <- <-. rewrite Hneg.
        exists true. eexists. split; [reflexivity|].
        split; [discriminate|]. intros _. rewrite <- Hcopy.
        f_equal. unfold extend, record, set_cow_writer. cbn.
        rewrite <- !app_assoc. reflexivity.
      * injection Hrun as <- <-. new_events Htrace.
        injection Htrace as <- <-. rewrite Hneg.
        exists false, []. split; [reflexivity|].
        split; [auto|discriminate].
    + cbn [bind] in Hrun. rewrite cow_run in Hrun by reflexivity.
      destruct (cow_reply E _ _) eqn:Happend;
        injection Hrun as <- <-; new_events Htrace;
        injection Htrace as <- <-; rewrite Hneg;
        eexists; (split; [reflexivity|]); split; reflexivity.
  - injection Hrun as <- <-. new_events Htrace.
    injection Htrace as <- <-. split; reflexivity.
Qed.

Lemma Init_resume_witness :
  (is_resume resume_plan = true
   /\ Init cooperative (Some resume_plan) true (fresh_writer 4 (Some 3))
      = (Val true,
         extend [EvPartitionWriterInit true; EvOpenCowWriter true true;
                 EvGetInt64 (Some 3); EvCow (InitializeAppend 3) true]
                (opened_writer 4 (Some 3))))
  /\ exists appended,
       [EvCow (InitializeAppend 3) true]
       = [EvCow (InitializeAppend 3) appended]
       /\ Val true = Val appended
       /\ prefs (extend [EvPartitionWriterInit true; EvOpenCowWriter true true;
                         EvGetInt64 (Some 3); EvCow (InitializeAppend 3) true]
                        (opened_writer 4 (Some 3)))
          = prefs (fresh_writer 4 (Some 3)).
Proof.
  split; [split; reflexivity|].
  exact (Init_resume cooperative resume_plan true
           (fresh_writer 4 (Some 3)) _ (Val true) (Some 3)
           [EvCow (InitializeAppend 3) true] eq_refl eq_refl eq_refl).
Defined.

(** C1.  [Init] does not look at the result of [WriteAllCowOps].  On a
    fresh start with the converted operations [Copy(10, 0); Replace(20, 1)]
    and a COW writer that refuses [AddCopy], [WriteAllCowOps] returns
    failure at the first operation; [Init] goes on all the same, adds
    label 0, sets the checkpoint to 0 and returns success. *)
Theorem Init_ignores_WriteAllCowOps_failure :
  WriteAllCowOps refusing_copies 4 [Copy 10 0; Replace 20 1]
    (opened_writer 4 (Some (-1)))
  = (Val false,
     extend [EvCow (AddCopy 0 10) false] (opened_writer 4 (Some (-1))))
  /\ Init refusing_copies (Some fresh_plan) true (fresh_writer 4 None)
     = (Val true,
        set_prefs (Some 0)
          (extend [EvPartitionWriterInit true; EvOpenCowWriter false true;
                   EvCow Initialize true; EvSetInt64 (-1) true; EvConvert;
                   EvCow (AddCopy 0 10) false;
                   EvCow (AddLabel 0) true; EvSetInt64 0 true]
                  (opened_writer 4 None))).
Proof. split; reflexivity. Qed.

(** ** Zero and discard operations *)

Lemma AddZeroBlocks_each_run (E : Collaborators) (extents : list Extent) :
  forall s, cow_writer_ s = true ->
  exists r oks,
    AddZeroBlocks_each E extents s = (Val r, extend (zero_calls extents oks) s)
    /\ ((r = true /\ oks = repeat true (length extents))
        \/ (r = false /\ exists k, (k < length extents)%nat
                                   /\ oks = repeat true k ++ [false])).
Proof.
  induction extents as [|extent rest IH]; intros s Hw.
  - exists true, []. split; [|left; split; reflexivity].
    simpl. now rewrite extend_nil.
  - cbn [AddZeroBlocks_each bind]. rewrite (cow_run E _ s Hw).
    set (c := AddZeroBlocks (start_block extent) (num_blocks extent)).
    destruct (cow_reply E (trace s) c) eqn:Hok.
    + destruct (IH (record (EvCow c true) s) Hw) as (r & oks & Hrun & Hcase).
      exists r, (true :: oks). split.
      * rewrite Hrun, extend_cons. reflexivity.
      * destruct Hcase as [[-> ->]|[-> (k & Hk & ->)]].
        -- left. split; reflexivity.
        -- right. split; [reflexivity|]. exists (S k). split; [simpl; lia|reflexivity].
    + exists false, [false]. split.
      * unfold zero_calls. cbn [combine map fst snd].
        rewrite combine_nil, record_extend. reflexivity.
      * right. split; [reflexivity|]. exists 0%nat. split; [simpl; lia|reflexivity].
Qed.

(** C8.  On a writer whose COW writer is open,
    [PerformZeroOrDiscardOperation] calls [AddZeroBlocks(start_block,
    num_blocks)] for the destination extents in their order, once each: the
    calls it makes are those of the extents that got an answer.  Either every
    extent was accepted and it returns success, or the answers are some
    acceptances followed by one refusal, at which it stops and returns
    failure, the earlier calls staying made.  It touches neither the store
    nor the source. *)
Theorem PerformZeroOrDiscardOperation_calls
    (E : Collaborators) (operation : InstallOperation) (s : State)
    (Hopen : cow_writer_ s = true) :
  exists r oks,
    PerformZeroOrDiscardOperation E operation s
    = (Val r, extend (zero_calls (dst_extents operation) oks) s)
    /\ ((r = true /\ oks = repeat true (length (dst_extents operation)))
        \/ (r = false
            /\ exists k, (k < length (dst_extents operation))%nat
                         /\ oks = repeat true k ++ [false])).
Proof. apply AddZeroBlocks_each_run, Hopen. Qed.

Lemma PerformZeroOrDiscardOperation_calls_witness :
  cow_writer_ (opened_writer 4096 (Some 0)) = true
  /\ exists r oks,
    PerformZeroOrDiscardOperation
      (scripted [] true (fun _ => true) (fun _ => true) full_source true)
      two_extents (opened_writer 4096 (Some 0))
    = (Val r, extend (zero_calls (dst_extents two_extents) oks)
                     (opened_writer 4096 (Some 0)))
    /\ ((r = true /\ oks = repeat true (length (dst_extents two_extents)))
        \/ (r = false
            /\ exists k, (k < length (dst_extents two_extents))%nat
                         /\ oks = repeat true k ++ [false])).
Proof.
  split; [reflexivity|].
  apply (PerformZeroOrDiscardOperation_calls
           (scripted [] true (fun _ => true) (fun _ => true) full_source true)
           two_extents (opened_writer 4096 (Some 0))).
  reflexivity.
Defined.

(** ** Source copy at replay time *)

(** C9.  [PerformSourceCopyOperation] returns success for every operation
    and leaves the state as it was: the trace gets no call to the COW
    writer, to the store or to the source, and the stored checkpoint is
    untouched. *)
Theorem PerformSourceCopyOperation_noop
    (operation : InstallOperation) (error : ErrorCode) (s : State) :
  PerformSourceCopyOperation operation error s = (Val true, s).
Proof. reflexivity. Qed.

(** ** Flush and the checkpoint *)

(** [CheckpointUpdateProgress(5)] followed by [Flush()]: the COW writer
    receives [AddLabel(6)]. *)
Example CheckpointUpdateProgress_then_Flush :
  (_ <- CheckpointUpdateProgress cooperative 5 ;; Flush cooperative)
    (opened_writer 4096 (Some 4))
  = (Val true,
     set_prefs (Some 5)
       (extend [EvSetInt64 5 true; EvGetInt64 (Some 5);
                EvCow (AddLabel 6) true]
               (opened_writer 4096 (Some 4)))).
Proof. reflexivity. Qed.

(** C10.  [Flush] leaves the stored checkpoint as it found it, whatever the
    collaborators answer and however it ends. *)
Theorem Flush_keeps_checkpoint (E : Collaborators) (s : State) :
  prefs (snd (Flush E s)) = prefs s.
Proof.
  unfold Flush, prefs_GetInt64, int64_add. cbn [bind].
  destruct (if prefs_readable E (trace s) then prefs s else None) as [n|];
    [|reflexivity].
  destruct (Int64.add n 1) as [label|]; [|reflexivity].
  cbn [ret bind].
  pose proof (cow_keeps_prefs E (AddLabel (Int64.unsigned label))
                (record (EvGetInt64 (Some n)) s)) as H.
  destruct (cow E (AddLabel (Int64.unsigned label))
              (record (EvGetInt64 (Some n)) s)) as [[b|] s'];
    exact H.
Qed.

(** C4, as stated, fails: with the checkpoint at 5 and a COW writer that
    refuses the label, [Flush] calls [AddLabel(6)], is refused, and returns
    success. *)
Lemma Flush_succeeds_when_label_refused :
  Flush refusing_labels (opened_writer 4096 (Some 5))
  = (Val true,
     extend [EvGetInt64 (Some 5); EvCow (AddLabel 6) false]
            (opened_writer 4096 (Some 5)))
  /\ fst (Flush refusing_labels (opened_writer 4096 (Some 5))) <> Val false.
Proof. split; [reflexivity|discriminate]. Qed.

(** C4, amended.  On a writer whose COW writer is open: when the read of
    the checkpoint fails, [Flush] returns failure and makes no other call,
    so it adds no label; when the read answers [n], from -1 up to below
    the largest [int64_t], [Flush] calls [AddLabel(n + 1)] and returns
    success, whether the label was accepted or not. *)
Theorem Flush_adds_next_label
    (E : Collaborators) (s : State) (Hopen : cow_writer_ s = true) :
  (fst (prefs_GetInt64 E s) = Val None ->
   Flush E s = (Val false, record (EvGetInt64 None) s))
  /\ (forall n,
        fst (prefs_GetInt64 E s) = Val (Some n) ->
        -1 <= n < Int64.max_signed ->
        exists labelled,
          Flush E s
          = (Val true,
             extend [EvGetInt64 (Some n); EvCow (AddLabel (n + 1)) labelled] s)).
Proof.
  unfold Flush, prefs_GetInt64. cbn [bind fst].
  split.
  - intros Hread. injection Hread as ->. reflexivity.
  - intros n Hread Hrange. injection Hread as ->.
    unfold int64_add, Int64.add, Int64.in_range.
    replace ((Int64.min_signed <=? n + 1) && (n + 1 <=? Int64.max_signed))
      with true
      by (symmetry; apply andb_true_iff; split; apply Z.leb_le;
          unfold Int64.min_signed; lia).
    cbn [bind ret]. rewrite unsigned_small by lia.
    rewrite cow_run by exact Hopen.
    eexists. rewrite record_extend, record_extend, extend_extend. reflexivity.
Qed.

Lemma Flush_adds_next_label_witness :
  cow_writer_ (opened_writer 4096 (Some 5)) = true
  /\ (fst (prefs_GetInt64 cooperative (opened_writer 4096 (Some 5)))
      = Val (Some 5)
      /\ -1 <= 5 < Int64.max_signed)
  /\ exists labelled,
       Flush cooperative (opened_writer 4096 (Some 5))
       = (Val true,
          extend [EvGetInt64 (Some 5); EvCow (AddLabel (5 + 1)) labelled]
                 (opened_writer 4096 (Some 5))).
Proof.
  assert (Hrange : -1 <= 5 < Int64.max_signed)
    by (unfold Int64.max_signed; lia).
  split; [reflexivity|]. split; [split; [reflexivity|exact Hrange]|].
  exact (proj2 (Flush_adds_next_label cooperative
                  (opened_writer 4096 (Some 5)) eq_refl)
               5 eq_refl Hrange).
Defined.

(** C5, as stated, fails: when the store refuses the write,
    [CheckpointUpdateProgress(7)] leaves the checkpoint at 3 and hands its
    caller the same result as when the store accepts it. *)
Lemma CheckpointUpdateProgress_hides_refusal :
  CheckpointUpdateProgress refusing_writes 7 (opened_writer 4096 (Some 3))
  = (Val tt, extend [EvSetInt64 7 false] (opened_writer 4096 (Some 3)))
  /\ prefs (snd (CheckpointUpdateProgress refusing_writes 7
                   (opened_writer 4096 (Some 3))))
     <> Some 7
  /\ fst (CheckpointUpdateProgress refusing_writes 7
            (opened_writer 4096 (Some 3)))
     = fst (CheckpointUpdateProgress cooperative 7
              (opened_writer 4096 (Some 3))).
Proof. split; [reflexivity|]. split; [discriminate|reflexivity]. Qed.

(** C5, amended.  [CheckpointUpdateProgress(next_op_index)], for an index
    that fits an [int64_t], asks the store to set the checkpoint to
    [next_op_index]; when the store accepts, that is the stored value, and
    when it refuses, the stored value is as before.  The function returns
    nothing: its result is the same in both cases. *)
Theorem CheckpointUpdateProgress_sets_checkpoint
    (E : Collaborators) (next_op_index : Z) (s : State)
    (Hindex : 0 <= next_op_index <= Int64.max_signed) :
  exists ok,
    CheckpointUpdateProgress E next_op_index s
    = (Val tt,
       record (EvSetInt64 next_op_index ok)
              (if ok then set_prefs (Some next_op_index) s else s)).
Proof.
  unfold CheckpointUpdateProgress, prefs_SetInt64. cbn [bind ret].
  assert (Hsigned : Int64.signed next_op_index = next_op_index).
  { unfold Int64.signed, Int64.modulus, Int64.max_signed in *.
    rewrite Z.mod_small by lia.
    destruct (next_op_index <=? 9223372036854775807) eqn:Hle; [reflexivity|].
    apply Z.leb_gt in Hle. lia. }
  rewrite Hsigned. eexists. reflexivity.
Qed.

Lemma CheckpointUpdateProgress_sets_checkpoint_witness :
  0 <= 5 <= Int64.max_signed
  /\ exists ok,
       CheckpointUpdateProgress cooperative 5 (opened_writer 4096 (Some 4))
       = (Val tt,
          record (EvSetInt64 5 ok)
                 (if ok then set_prefs (Some 5) (opened_writer 4096 (Some 4))
                  else opened_writer 4096 (Some 4))).
Proof.
  assert (Hindex : 0 <= 5 <= Int64.max_signed)
    by (unfold Int64.max_signed; lia).
  split; [exact Hindex|].
  exact (CheckpointUpdateProgress_sets_checkpoint cooperative 5
           (opened_writer 4096 (Some 4)) Hindex).
Defined.

(** ** Teardown *)

(** C6.  The destructor does not test [cow_writer_].  After an [Init] that
    failed because no COW writer could be opened, [cow_writer_] is null;
    the destructor sets the checkpoint to -1 and then calls [Finalize]
    through the null pointer: its behaviour is undefined, and no
    [Finalize] reaches a log. *)
Theorem destructor_after_unopened_Init :
  Init no_cow_writer (Some fresh_plan) true (fresh_writer 4096 (Some 5))
  = (Val false, extend unopened_Init_calls (fresh_writer 4096 (Some 5)))
  /\ cow_writer_ (extend unopened_Init_calls (fresh_writer 4096 (Some 5)))
     = false
  /\ destructor no_cow_writer
       (extend unopened_Init_calls (fresh_writer 4096 (Some 5)))
     = (Undefined,
        set_prefs (Some (-1))
          (extend (unopened_Init_calls ++ [EvSetInt64 (-1) true])
                  (fresh_writer 4096 (Some 5))))
  /\ forall finalized,
       ~ In (EvCow Finalize finalized)
            (trace (snd (destructor no_cow_writer
                           (extend unopened_Init_calls
                                   (fresh_writer 4096 (Some 5)))))).
Proof.
  split; [reflexivity|]. split; [reflexivity|]. split; [reflexivity|].
  intros finalized Hin. simpl in Hin. intuition discriminate.
Qed.

(** X18.  At the teardown of a writer that holds a COW writer, whatever
    happened to it before, a failed [Init] included, the destructor asks
    the store to set the checkpoint to -1 and then calls [Finalize], once;
    these are its only calls.  When the store accepts the write the
    checkpoint is -1 afterwards. *)
Theorem destructor_resets_then_finalizes
    (E : Collaborators) (s : State) (Hopen : cow_writer_ s = true) :
  exists reset finalized s',
    destructor E s = (Val tt, s')
    /\ trace s' = trace s ++ [EvSetInt64 (-1) reset; EvCow Finalize finalized]
    /\ (reset = true -> prefs s' = Some (-1)).
Proof.
  unfold destructor, prefs_SetInt64. cbn [bind].
  destruct (prefs_writable E (trace s) (-1)) eqn:Hreset;
    rewrite cow_run by exact Hopen; cbn [ret];
    do 3 eexists; (split; [reflexivity|]);
    (split; [cbn [trace record set_prefs]; rewrite <- app_assoc; reflexivity|]);
    [reflexivity|discriminate].
Qed.

Lemma destructor_resets_then_finalizes_witness :
  (Init refusing_initialize (Some fresh_plan) true (fresh_writer 4096 (Some 5))
   = (Val false, extend failed_Init_calls (opened_writer 4096 (Some 5)))
   /\ cow_writer_ (extend failed_Init_calls (opened_writer 4096 (Some 5)))
      = true)
  /\ exists reset finalized s',
       destructor refusing_initialize
         (extend failed_Init_calls (opened_writer 4096 (Some 5)))
       = (Val tt, s')
       /\ trace s'
          = trace (extend failed_Init_calls (opened_writer 4096 (Some 5)))
            ++ [EvSetInt64 (-1) reset; EvCow Finalize finalized]
       /\ (reset = true -> prefs s' = Some (-1)).
Proof.
  split; [split; reflexivity|].
  exact (destructor_resets_then_finalizes refusing_initialize
           (extend failed_Init_calls (opened_writer 4096 (Some 5)))
           eq_refl).
Defined.

(** ** More on [WriteAllCowOps] *)

(** A read that passes the test of line 123 found a whole block. *)
Lemma full_read (block_size : Z) (found : list byte) :
  (Z.of_nat (length (firstn (Z.to_nat block_size) found)) <=? 0)
  || negb (Int64.unsigned
             (Z.of_nat (length (firstn (Z.to_nat block_size) found)))
           =? block_size) = false ->
  Z.of_nat (length (firstn (Z.to_nat block_size) found)) = block_size.
Proof.
  intros H. apply orb_false_iff in H as [Hpos Heq].
  apply Z.leb_gt in Hpos. apply negb_false_iff, Z.eqb_eq in Heq.
  pose proof (length_firstn (Z.to_nat block_size) found) as Hlen.
  unfold Int64.unsigned, Int64.modulus in Heq.
  pose proof (Z.mod_pos_bound
                (Z.of_nat (length (firstn (Z.to_nat block_size) found)))
                18446744073709551616 eq_refl) as Hbound.
  rewrite Z.mod_small in Heq by lia. exact Heq.
Qed.

(** After a whole block was read into a block-sized buffer, the buffer
    holds the bytes read and nothing else. *)
Lemma buffer_refilled (block_size : Z) (found buffer : list byte) :
  length buffer = Z.to_nat block_size ->
  Z.of_nat (length (firstn (Z.to_nat block_size) found)) = block_size ->
  firstn (Z.to_nat block_size) found
    ++ skipn (length (firstn (Z.to_nat block_size) found)) buffer
  = firstn (Z.to_nat block_size) found.
Proof.
  intros Hlen Hfull. rewrite skipn_all2 by lia. apply app_nil_r.
Qed.

(** What the buffer held before an operation has no influence on the run. *)
Lemma WriteAllCowOps_loop_buffer (E : Collaborators) (block_size : Z)
    (converted : list CowOperation) :
  forall buffer1 buffer2 s,
    length buffer1 = Z.to_nat block_size ->
    length buffer2 = Z.to_nat block_size ->
    WriteAllCowOps_loop E block_size converted buffer1 s
    = WriteAllCowOps_loop E block_size converted buffer2 s.
Proof.
  induction converted as [|cow_op rest IH]; intros buffer1 buffer2 s H1 H2;
    [reflexivity|].
  destruct (CowOperation_cases cow_op)
    as [(src & dst & ->) | (src & dst & ->)].
  - rewrite !WriteAllCowOps_loop_Copy. cbn [bind].
    destruct (cow E (AddCopy dst src) s) as [[[|]|] s1]; try reflexivity.
    now apply IH.
  - rewrite !WriteAllCowOps_loop_Replace. cbv zeta.
    destruct (negb _); [reflexivity|].
    destruct (_ || _) eqn:Hcheck; [reflexivity|].
    apply full_read in Hcheck.
    rewrite (buffer_refilled block_size _ buffer1 H1 Hcheck).
    rewrite (buffer_refilled block_size _ buffer2 H2 Hcheck).
    reflexivity.
Qed.

Lemma WriteAllCowOps_loop_sequence (E : Collaborators) (block_size : Z)
    (pre post : list CowOperation) :
  forall buffer s,
    length buffer = Z.to_nat block_size ->
    WriteAllCowOps_loop E block_size (pre ++ post) buffer s
    = (TEST_AND_RETURN_FALSE WriteAllCowOps_loop E block_size pre buffer ;;
       WriteAllCowOps E block_size post) s.
Proof.
  induction pre as [|cow_op rest IH]; intros buffer s Hlen.
  - cbn [app WriteAllCowOps_loop bind ret]. unfold WriteAllCowOps.
    apply WriteAllCowOps_loop_buffer; [exact Hlen|apply repeat_length].
  - rewrite <- app_comm_cons. cbn [bind].
    destruct (CowOperation_cases cow_op)
      as [(src & dst & ->) | (src & dst & ->)].
    + rewrite !WriteAllCowOps_loop_Copy. cbn [bind].
      destruct (cow E (AddCopy dst src) s) as [[[|]|] s1]; try reflexivity.
      rewrite (IH buffer s1 Hlen). reflexivity.
    + rewrite !WriteAllCowOps_loop_Replace. cbv zeta.
      destruct (negb _); [reflexivity|].
      destruct (_ || _); [reflexivity|].
      cbn [bind].
      destruct (cow E _ _) as [[[|]|] s1]; try reflexivity.
      rewrite IH by (apply buffer_refill_length, Hlen). reflexivity.
Qed.

(** X2.  [WriteAllCowOps] on [pre ++ post] is [WriteAllCowOps] on [pre]
    and, when that succeeds, [WriteAllCowOps] on [post] from the state
    reached; when [pre] fails, the run ends there and [post] is not
    touched.  The buffer reused between the operations carries nothing
    from [pre] into [post]. *)
Theorem WriteAllCowOps_sequence
    (E : Collaborators) (block_size : Z) (pre post : list CowOperation)
    (s : State) :
  WriteAllCowOps E block_size (pre ++ post) s
  = (TEST_AND_RETURN_FALSE WriteAllCowOps E block_size pre ;;
     WriteAllCowOps E block_size post) s.
Proof.
  unfold WriteAllCowOps at 1 2.
  apply WriteAllCowOps_loop_sequence, repeat_length.
Qed.

(** The accepted writes and the raw blocks of a run of the loop. *)
Lemma WriteAllCowOps_loop_writes (E : Collaborators) (block_size : Z)
    (converted : list CowOperation) :
  forall buffer s prev,
    length buffer = Z.to_nat block_size ->
    cow_writer_ s = true ->
    exists r w k,
      WriteAllCowOps_loop E block_size converted buffer s = (Val r, extend w s)
      /\ raw_blocks_follow_reads block_size prev w
      /\ (k <= length converted)%nat
      /\ accepted_writes w = map dst_block (firstn k converted)
      /\ (r = true <-> k = length converted).
Proof.
  induction converted as [|cow_op rest IH]; intros buffer s prev Hlen Hw.
  - exists true, [], 0%nat. cbn [WriteAllCowOps_loop ret].
    rewrite extend_nil. repeat split; auto.
  - destruct (CowOperation_cases cow_op)
      as [(src & dst & ->) | (src & dst & ->)].
    + rewrite WriteAllCowOps_loop_Copy. cbn [bind].
      rewrite (cow_run E _ s Hw).
      destruct (cow_reply E (trace s) _) eqn:Hok.
      * destruct (IH buffer (record (EvCow (AddCopy dst src) true) s) None
                    Hlen Hw) as (r & w & k & Hrun & Hraw & Hk & Hacc & Hr).
        exists r, (EvCow (AddCopy dst src) true :: w), (S k).
        rewrite Hrun, extend_cons. split; [reflexivity|].
        split; [split; [exact I|exact Hraw]|].
        split; [simpl; lia|].
        split; [cbn [accepted_writes accepted_write firstn map dst_block Copy];
                now rewrite Hacc|].
        simpl. rewrite Hr. split; [congruence|intros H; now injection H].
      * exists false, [EvCow (AddCopy dst src) false], 0%nat.
        rewrite record_extend. split; [reflexivity|].
        split; [split; exact I|]. split; [simpl; lia|].
        split; [reflexivity|]. split; discriminate.
    + rewrite WriteAllCowOps_loop_Replace. cbv zeta.
      set (offset := Int64.signed (Int64.unsigned (src * block_size))).
      destruct (fst (source_read E (trace s) block_size offset)) eqn:Hread.
      2:{ cbn [negb]. eexists false, [_], 0%nat.
          rewrite record_extend. split; [reflexivity|].
          split; [split; exact I|]. split; [simpl; lia|].
          split; [reflexivity|]. split; discriminate. }
      cbn [negb].
      destruct (_ || _) eqn:Hcheck.
      { eexists false, [_], 0%nat.
        rewrite record_extend. split; [reflexivity|].
        split; [split; exact I|]. split; [simpl; lia|].
        split; [reflexivity|]. split; discriminate. }
      apply full_read in Hcheck.
      rewrite (buffer_refilled block_size _ buffer Hlen Hcheck).
      set (data := firstn (Z.to_nat block_size) _) in *.
      set (s2 := record _ s).
      assert (Hw2 : cow_writer_ s2 = true) by exact Hw.
      assert (Hdata : length data = Z.to_nat block_size) by lia.
      cbn [bind]. rewrite (cow_run E _ s2 Hw2).
      destruct (cow_reply E (trace s2) _) eqn:Hok.
      * destruct (IH data
                    (record (EvCow (AddRawBlocks dst data block_size) true) s2)
                    None Hdata Hw2)
          as (r & w & k & Hrun & Hraw & Hk & Hacc & Hr).
        exists r,
          (EvPReadAll block_size offset true data
             :: EvCow (AddRawBlocks dst data block_size) true :: w), (S k).
        rewrite Hrun, extend_cons. unfold s2. rewrite extend_cons.
        split; [reflexivity|].
        split; [cbn; repeat split; auto|].
        split; [simpl; lia|].
        split; [cbn [accepted_writes accepted_write firstn map dst_block
                     Replace]; now rewrite Hacc|].
        simpl. rewrite Hr. split; [congruence|intros H; now injection H].
      * exists false,
          [EvPReadAll block_size offset true data;
           EvCow (AddRawBlocks dst data block_size) false], 0%nat.
        rewrite record_extend. unfold s2. rewrite record_extend, extend_extend.
        split; [reflexivity|].
        split; [cbn; repeat split; auto|]. split; [simpl; lia|].
        split; [reflexivity|]. split; discriminate.
Qed.

(** X1.  On a writer whose COW writer is open, [WriteAllCowOps] always
    ends with a result, and all it does is read the source and call
    [AddCopy] and [AddRawBlocks]: it adds no label, does not call the
    store, and leaves the stored checkpoint and the writer's fields as they
    were. *)
Theorem WriteAllCowOps_only_streams
    (E : Collaborators) (block_size : Z) (converted : list CowOperation)
    (s : State) (Hopen : cow_writer_ s = true) :
  exists r w,
    WriteAllCowOps E block_size converted s = (Val r, extend w s)
    /\ forallb copy_phase_write w = true.
Proof. apply WriteAllCowOps_loop_run, Hopen. Qed.

Lemma WriteAllCowOps_only_streams_witness :
  cow_writer_ (opened_writer 4 (Some (-1))) = true
  /\ exists r w,
       WriteAllCowOps cooperative 4 [Copy 10 0; Replace 20 1]
                      (opened_writer 4 (Some (-1)))
       = (Val r, extend w (opened_writer 4 (Some (-1))))
       /\ forallb copy_phase_write w = true.
Proof.
  split; [reflexivity|].
  exact (WriteAllCowOps_only_streams cooperative 4 [Copy 10 0; Replace 20 1]
           (opened_writer 4 (Some (-1))) eq_refl).
Defined.

(** X3.  On a writer whose COW writer is open, the destination blocks
    that a run of [WriteAllCowOps] gets into the COW writer are those of
    the first [k] converted operations, one accepted write for each, in
    their order; the run returns success exactly when [k] is the number of
    operations, so a failed run leaves a proper prefix. *)
Theorem WriteAllCowOps_accepted_prefix
    (E : Collaborators) (block_size : Z) (converted : list CowOperation)
    (s : State) (Hopen : cow_writer_ s = true) :
  exists r w k,
    WriteAllCowOps E block_size converted s = (Val r, extend w s)
    /\ (k <= length converted)%nat
    /\ accepted_writes w = map dst_block (firstn k converted)
    /\ (r = true <-> k = length converted).
Proof.
  destruct (WriteAllCowOps_loop_writes E block_size converted
              (repeat x00 (Z.to_nat block_size)) s None
              (repeat_length _ _) Hopen)
    as (r & w & k & Hrun & _ & Hk & Hacc & Hr).
  now exists r, w, k.
Qed.

Lemma WriteAllCowOps_accepted_prefix_witness :
  cow_writer_ (opened_writer 4 (Some (-1))) = true
  /\ exists r w k,
       WriteAllCowOps refusing_copies 4 [Replace 20 1; Copy 10 0; Replace 7 2]
                      (opened_writer 4 (Some (-1)))
       = (Val r, extend w (opened_writer 4 (Some (-1))))
       /\ (k <= length [Replace 20 1; Copy 10 0; Replace 7 2])%nat
       /\ accepted_writes w
          = map dst_block (firstn k [Replace 20 1; Copy 10 0; Replace 7 2])
       /\ (r = true <-> k = length [Replace 20 1; Copy 10 0; Replace 7 2]).
Proof.
  split; [reflexivity|].
  exact (WriteAllCowOps_accepted_prefix refusing_copies 4
           [Replace 20 1; Copy 10 0; Replace 7 2]
           (opened_writer 4 (Some (-1))) eq_refl).
Defined.

(** X4.  On a writer whose COW writer is open, every [AddRawBlocks] that
    [WriteAllCowOps] makes has size [block_size] and writes exactly
    [block_size] bytes, the ones found by the successful read made just
    before it: no part of a block and no byte of an earlier block is
    written. *)
Theorem WriteAllCowOps_raw_blocks
    (E : Collaborators) (block_size : Z) (converted : list CowOperation)
    (s : State) (Hopen : cow_writer_ s = true) :
  exists r w,
    WriteAllCowOps E block_size converted s = (Val r, extend w s)
    /\ raw_blocks_follow_reads block_size None w.
Proof.
  destruct (WriteAllCowOps_loop_writes E block_size converted
              (repeat x00 (Z.to_nat block_size)) s None
              (repeat_length _ _) Hopen)
    as (r & w & k & Hrun & Hraw & _).
  now exists r, w.
Qed.

Lemma WriteAllCowOps_raw_blocks_witness :
  cow_writer_ (opened_writer 4 (Some (-1))) = true
  /\ exists r w,
       WriteAllCowOps cooperative 4 [Replace 20 1; Replace 7 2]
                      (opened_writer 4 (Some (-1)))
       = (Val r, extend w (opened_writer 4 (Some (-1))))
       /\ raw_blocks_follow_reads 4 None w.
Proof.
  split; [reflexivity|].
  exact (WriteAllCowOps_raw_blocks cooperative 4 [Replace 20 1; Replace 7 2]
           (opened_writer 4 (Some (-1))) eq_refl).
Defined.

(** ** The writer's COW writer *)

Lemma keeps_ret {A} (a : A) : keeps_cow_writer (ret a).
Proof. intros s. reflexivity. Qed.

Lemma keeps_bind {A B} (m : M A) (k : A -> M B) :
  keeps_cow_writer m -> (forall a, keeps_cow_writer (k a)) ->
  keeps_cow_writer (bind m k).
Proof.
  intros Hm Hk s. cbn [bind]. specialize (Hm s).
  destruct (m s) as [[a|] s1]; cbn [snd] in *; [|exact Hm].
  now rewrite Hk.
Qed.

Lemma keeps_test (m : M bool) (k : M bool) :
  keeps_cow_writer m -> keeps_cow_writer k ->
  keeps_cow_writer (TEST_AND_RETURN_FALSE m ;; k).
Proof.
  intros Hm Hk. apply keeps_bind; [exact Hm|].
  intros [|]; [exact Hk|apply keeps_ret].
Qed.

Lemma keeps_cow (E : Collaborators) (c : CowCall) : keeps_cow_writer (cow E c).
Proof.
  intros s. unfold cow.
  destruct (cow_writer_ s) eqn:Hw; cbn [snd record cow_writer_]; exact Hw.
Qed.

Lemma keeps_prefs_SetInt64 (E : Collaborators) (value : Z) :
  keeps_cow_writer (prefs_SetInt64 E value).
Proof.
  intros s. unfold prefs_SetInt64. cbn [snd].
  now destruct (prefs_writable E (trace s) value).
Qed.

Lemma keeps_prefs_GetInt64 (E : Collaborators) :
  keeps_cow_writer (prefs_GetInt64 E).
Proof. intros s. reflexivity. Qed.

Lemma keeps_PReadAll (E : Collaborators) (buffer : list byte)
    (count offset : Z) : keeps_cow_writer (PReadAll E buffer count offset).
Proof. intros s. now rewrite PReadAll_run. Qed.

Lemma keeps_WriteAllCowOps_loop (E : Collaborators) (block_size : Z)
    (converted : list CowOperation) :
  forall buffer,
    keeps_cow_writer (WriteAllCowOps_loop E block_size converted buffer).
Proof.
  induction converted as [|cow_op rest IH]; intros buffer; [apply keeps_ret|].
  cbn [WriteAllCowOps_loop]. destruct (op cow_op).
  - apply keeps_test; [apply keeps_cow|apply IH].
  - apply keeps_bind; [apply keeps_PReadAll|].
    intros [[ok bytes_read] buffer'].
    destruct (negb ok); [apply keeps_ret|].
    destruct (_ || _); [apply keeps_ret|].
    apply keeps_test; [apply keeps_cow|apply IH].
Qed.

Lemma keeps_Init_copy_phase (E : Collaborators) :
  keeps_cow_writer (Init_copy_phase E).
Proof.
  unfold Init_copy_phase.
  apply keeps_test; [apply keeps_prefs_SetInt64|].
  apply keeps_bind; [intros s; reflexivity|]. intros converted.
  apply keeps_bind; [intros s; reflexivity|]. intros block_size.
  apply keeps_bind; [apply keeps_WriteAllCowOps_loop|]. intros _.
  apply keeps_bind; [apply keeps_cow|]. intros _.
  apply keeps_test; [apply keeps_prefs_SetInt64|apply keeps_ret].
Qed.

(** ** The runs of [Init] *)

(** [Initialize()] and the copy phase, from the state that [Init] has
    reached with the calls of [copy_phase_setup]. *)
Lemma Initialize_then_copy_phase_run
    (E : Collaborators) (install_plan : option InstallPlan)
    (plan : InstallPlan) (next_op : Z) (stored : option Z)
    (s3 s' : State) (res : Res bool) :
  install_plan = Some plan ->
  restarts plan stored next_op ->
  cow_writer_ s3 = true ->
  prefs s3 = stored ->
  (TEST_AND_RETURN_FALSE cow E Initialize ;; Init_copy_phase E) s3
  = (res, s') ->
  exists r rest,
    res = Val r
    /\ trace s' = trace s3 ++ rest
    /\ Init_run install_plan stored (copy_phase_setup plan next_op ++ rest)
                r (prefs s')
    /\ cow_writer_ s' = true.
Proof.
  intros Hplan Hrestarts Hw Hstored Hrun.
  cbn [bind] in Hrun. rewrite (cow_run E _ s3 Hw) in Hrun.
  destruct (cow_reply E (trace s3) Initialize) eqn:Hinit.
  - pose proof (keeps_Init_copy_phase E (record (EvCow Initialize true) s3))
      as Hkeeps.
    destruct (Init_copy_phase_run E (record (EvCow Initialize true) s3) Hw)
      as (ok & rest' & r & s'' & Hrun' & Htrace' & Hfail & Hok).
    rewrite Hrun' in Hrun, Hkeeps. injection Hrun as <- <-.
    cbn [snd] in Hkeeps.
    exists r, (EvCow Initialize true :: EvSetInt64 (-1) ok :: rest').
    split; [reflexivity|].
    split; [rewrite Htrace'; cbn [trace record]; now rewrite <- app_assoc|].
    split; [|rewrite Hkeeps; exact Hw].
    destruct ok.
    + destruct (Hok eq_refl) as (w & labelled & streamed & -> & Hall & -> & _).
      apply (Init_copy_phase_ran install_plan stored plan next_op w labelled r
               Hplan Hrestarts Hall).
    + destruct (Hfail eq_refl) as (-> & -> & ->).
      cbn [prefs record]. rewrite Hstored.
      apply (Init_reset_refused install_plan stored plan next_op
               Hplan Hrestarts).
  - injection Hrun as <- <-.
    exists false, [EvCow Initialize false]. split; [reflexivity|].
    split; [reflexivity|]. split; [|exact Hw].
    cbn [prefs record]. rewrite Hstored.
    apply (Init_initialize_failed install_plan stored plan next_op
             Hplan Hrestarts).
Qed.

(** Every run of [Init] is one of the runs of [Init_run]: it ends with a
    result, and [cow_writer_] is what [OpenCowWriter] returned. *)
Lemma Init_has_run (E : Collaborators) (install_plan : option InstallPlan)
    (source_may_exist : bool) (s s' : State) (res : Res bool) :
  Init E install_plan source_may_exist s = (res, s') ->
  exists r evs,
    res = Val r
    /\ trace s' = trace s ++ evs
    /\ Init_run install_plan (prefs s) evs r (prefs s')
    /\ cow_writer_ s' = writer_after evs (cow_writer_ s).
Proof.
  intros Hrun.
  destruct install_plan as [plan|].
  2:{ injection Hrun as <- <-. exists false, [].
      split; [reflexivity|]. split; [now rewrite app_nil_r|].
      split; [now apply Init_null_plan|reflexivity]. }
  rewrite Init_unfold in Hrun. cbv zeta in Hrun.
  destruct (base_Init E (trace s) source_may_exist).
  2:{ injection Hrun as <- <-. exists false, [EvPartitionWriterInit false].
      repeat split. now apply (Init_base_failed _ _ plan). }
  destruct (open_cow_writer E _ (is_resume plan)) eqn:Hopen.
  2:{ injection Hrun as <- <-.
      exists false,
        [EvPartitionWriterInit true; EvOpenCowWriter (is_resume plan) false].
      split; [reflexivity|].
      split; [cbn [trace record set_cow_writer]; now rewrite <- app_assoc|].
      split; [now apply (Init_no_cow_writer _ _ plan)|reflexivity]. }
  destruct (is_resume plan) eqn:Hresume.
  - destruct (if prefs_readable E _ then _ else None) as [next_op|] eqn:Hget.
    2:{ injection Hrun as <- <-.
        exists false,
          [EvPartitionWriterInit true; EvOpenCowWriter true true;
           EvGetInt64 None].
        split; [reflexivity|].
        split; [cbn [trace record set_cow_writer];
                now rewrite <- !app_assoc|].
        split; [now apply (Init_unreadable _ _ plan)|reflexivity]. }
    assert (Hstored : prefs s = Some next_op).
    { destruct (prefs_readable E _); [exact Hget|discriminate Hget]. }
    destruct (next_op <? 0) eqn:Hneg.
    + assert (Hrestarts : restarts plan (prefs s) next_op)
        by (intros _; split; [exact Hstored|now apply Z.ltb_lt]).
      match type of Hrun with
      | _ ?s3 = _ =>
          destruct (Initialize_then_copy_phase_run E (Some plan) plan next_op
                      (prefs s) s3 s' res eq_refl Hrestarts eq_refl eq_refl
                      Hrun)
            as (r & rest & -> & Htrace' & Hshape & Hw)
      end.
      exists r, (copy_phase_setup plan next_op ++ rest).
      split; [reflexivity|].
      unfold copy_phase_setup in *. rewrite Hresume in *.
      split; [rewrite Htrace'; cbn [trace record set_cow_writer];
              now rewrite <- !app_assoc|].
      split; [exact Hshape|exact Hw].
    + cbn [bind] in Hrun. rewrite cow_run in Hrun by reflexivity.
      apply Z.ltb_ge in Hneg.
      match type of Hrun with
      | context [cow_reply E ?h ?c] => set (appended := cow_reply E h c) in *
      end.
      exists appended,
        [EvPartitionWriterInit true; EvOpenCowWriter true true;
         EvGetInt64 (Some next_op);
         EvCow (InitializeAppend next_op) appended].
      destruct appended; injection Hrun as <- <-;
        (split; [reflexivity|]);
        (split; [cbn [trace record set_cow_writer];
                 now rewrite <- !app_assoc|]);
        (split; [|reflexivity]);
        cbn [prefs record set_cow_writer];
        now apply (Init_appended _ _ plan next_op).
  - assert (Hrestarts : restarts plan (prefs s) 0)
      by (intros H; congruence).
    match type of Hrun with
    | _ ?s3 = _ =>
        destruct (Initialize_then_copy_phase_run E (Some plan) plan 0
                    (prefs s) s3 s' res eq_refl Hrestarts eq_refl eq_refl
                    Hrun)
          as (r & rest & -> & Htrace' & Hshape & Hw)
    end.
    exists r, (copy_phase_setup plan 0 ++ rest).
    split; [reflexivity|].
    unfold copy_phase_setup in *. rewrite Hresume in *.
    split; [rewrite Htrace'; cbn [trace record set_cow_writer];
            now rewrite <- !app_assoc|].
    split; [exact Hshape|exact Hw].
Qed.

Lemma Init_runs (E : Collaborators) (install_plan : option InstallPlan)
    (source_may_exist : bool) (s s' : State) (res : Res bool)
    (evs : list Event) :
  Init E install_plan source_may_exist s = (res, s') ->
  trace s' = trace s ++ evs ->
  exists r,
    res = Val r
    /\ Init_run install_plan (prefs s) evs r (prefs s')
    /\ cow_writer_ s' = writer_after evs (cow_writer_ s).
Proof.
  intros Hrun Htrace.
  destruct (Init_has_run E install_plan source_may_exist s s' res Hrun)
    as (r & evs' & Hres & Htrace' & Hshape & Hw).
  rewrite Htrace' in Htrace. apply app_inv_head in Htrace. subst evs'.
  now exists r.
Qed.

Lemma copy_phase_write_bootstrap_value (e : Event) :
  copy_phase_write e = true -> bootstrap_value e = true.
Proof. destruct e as [| | | | | |[] ok]; simpl; congruence. Qed.

Lemma copy_phase_write_not_appending (e : Event) :
  copy_phase_write e = true -> appending_call e = false.
Proof. destruct e as [| | | | | |[] ok]; simpl; congruence. Qed.

Lemma copy_phase_setup_cases (plan : InstallPlan) (next_op : Z) :
  copy_phase_setup plan next_op
  = [EvPartitionWriterInit true; EvOpenCowWriter true true;
     EvGetInt64 (Some next_op)]
  \/ copy_phase_setup plan next_op
     = [EvPartitionWriterInit true; EvOpenCowWriter false true].
Proof.
  unfold copy_phase_setup. destruct (is_resume plan); [left|right]; reflexivity.
Qed.

(** After a successful [Init] the COW writer is open and the stored
    checkpoint is not negative. *)
Lemma Init_success_state (E : Collaborators)
    (install_plan : option InstallPlan) (source_may_exist : bool)
    (s s' : State) :
  Init E install_plan source_may_exist s = (Val true, s') ->
  exists plan n,
    install_plan = Some plan
    /\ cow_writer_ s' = true
    /\ prefs s' = Some n
    /\ 0 <= n
    /\ (is_resume plan = false -> n = 0).
Proof.
  intros Hrun.
  destruct (Init_has_run E install_plan source_may_exist s s' _ Hrun)
    as (r & evs & Hres & _ & Hshape & Hw).
  injection Hres as <-.
  inversion Hshape as
    [ | | | | plan next_op appended Hplan Hresume Hstored Hpos
      | | | plan next_op w labelled r Hplan Hrestarts Hall ]; subst.
  - exists plan, next_op. rewrite Hw. repeat split; trivial; congruence.
  - exists plan, 0. rewrite Hw.
    destruct (copy_phase_setup_cases plan next_op) as [-> | ->];
      repeat split; trivial; lia.
Qed.

(** [Init] calls [InitializeAppend] only on a resumed plan, with the
    stored checkpoint, which is not negative; its answer is the result. *)
Lemma Init_appends_stored (E : Collaborators)
    (install_plan : option InstallPlan) (source_may_exist : bool)
    (s s' : State) (res : Res bool) (evs : list Event)
    (label : Z) (ok : bool) :
  Init E install_plan source_may_exist s = (res, s') ->
  trace s' = trace s ++ evs ->
  In (EvCow (InitializeAppend label) ok) evs ->
  exists plan,
    install_plan = Some plan
    /\ is_resume plan = true
    /\ prefs s = Some label
    /\ 0 <= label
    /\ res = Val ok.
Proof.
  intros Hrun Htrace Hin.
  destruct (Init_runs E install_plan source_may_exist s s' res evs Hrun Htrace)
    as (r & -> & Hshape & _).
  inversion Hshape as
    [ | | | | plan next_op appended Hplan Hresume Hstored Hpos
      | plan next_op Hplan Hrestarts
      | plan next_op Hplan Hrestarts
      | plan next_op w labelled r' Hplan Hrestarts Hall ]; subst;
    try (simpl in Hin; intuition discriminate).
  - simpl in Hin. destruct Hin as [H|[H|[H|[H|[]]]]]; try discriminate H.
    injection H as <- <-. now exists plan.
  - exfalso. destruct (copy_phase_setup_cases plan next_op) as [Hs | Hs];
      rewrite Hs in Hin; simpl in Hin; intuition discriminate.
  - exfalso. destruct (copy_phase_setup_cases plan next_op) as [Hs | Hs];
      rewrite Hs in Hin; simpl in Hin; intuition discriminate.
  - exfalso. apply in_app_or in Hin. destruct Hin as [Hin | Hin].
    + destruct (copy_phase_setup_cases plan next_op) as [Hs | Hs];
        rewrite Hs in Hin; simpl in Hin; intuition discriminate.
    + simpl in Hin. destruct Hin as [H|[H|[H|Hin]]]; try discriminate H.
      apply in_app_or in Hin. destruct Hin as [Hin | Hin].
      * rewrite forallb_forall in Hall. apply Hall in Hin. discriminate Hin.
      * simpl in Hin. intuition discriminate.
Qed.

(** X5.  [Init] never runs into undefined behaviour: it uses [cow_writer_]
    only after the test that it is not null, so from every state, for every
    plan and whatever the collaborators answer, it ends with a result. *)
Theorem Init_never_undefined
    (E : Collaborators) (install_plan : option InstallPlan)
    (source_may_exist : bool) (s : State) :
  exists r s', Init E install_plan source_may_exist s = (Val r, s').
Proof.
  destruct (Init E install_plan source_may_exist s) as [res s'] eqn:Hrun.
  destruct (Init_has_run E install_plan source_may_exist s s' res Hrun)
    as (r & _ & -> & _).
  now exists r, s'.
Qed.

(** X6.  When [Init] returns success, the plan was not null, the COW
    writer is open and the stored checkpoint is a value that is not
    negative; after a fresh start it is 0. *)
Theorem Init_success_checkpoint
    (E : Collaborators) (install_plan : option InstallPlan)
    (source_may_exist : bool) (s s' : State)
    (Hrun : Init E install_plan source_may_exist s = (Val true, s')) :
  exists plan n,
    install_plan = Some plan
    /\ cow_writer_ s' = true
    /\ prefs s' = Some n
    /\ 0 <= n
    /\ (is_resume plan = false -> n = 0).
Proof. exact (Init_success_state E install_plan source_may_exist s s' Hrun). Qed.

Lemma Init_success_checkpoint_witness :
  Init plain (Some fresh_plan) true (fresh_writer 4 (Some 7))
  = (Val true,
     set_prefs (Some 0)
       (extend (empty_start_calls true) (opened_writer 4 (Some 7))))
  /\ exists plan n,
       Some fresh_plan = Some plan
       /\ cow_writer_ (set_prefs (Some 0)
                         (extend (empty_start_calls true)
                                 (opened_writer 4 (Some 7)))) = true
       /\ prefs (set_prefs (Some 0)
                   (extend (empty_start_calls true)
                           (opened_writer 4 (Some 7)))) = Some n
       /\ 0 <= n
       /\ (is_resume plan = false -> n = 0).
Proof.
  split; [reflexivity|].
  exact (Init_success_checkpoint plain (Some fresh_plan) true
           (fresh_writer 4 (Some 7)) _ eq_refl).
Defined.

Lemma Init_failure_state
    (E : Collaborators) (install_plan : option InstallPlan)
    (source_may_exist : bool) (s s' : State) (evs : list Event) :
  Init E install_plan source_may_exist s = (Val false, s') ->
  trace s' = trace s ++ evs ->
  In (EvSetInt64 (-1) true) evs ->
  prefs s' = Some (-1).
Proof.
  intros Hrun Htrace Hreset.
  destruct (Init_runs E install_plan source_may_exist s s' _ evs Hrun Htrace)
    as (r & Hres & Hshape & _).
  injection Hres as <-.
  inversion Hshape as
    [ | | | | plan next_op appended Hplan Hresume Hstored Hpos
      | plan next_op Hplan Hrestarts
      | plan next_op Hplan Hrestarts
      | plan next_op w labelled r' Hplan Hrestarts Hall ]; subst;
    try (exfalso; simpl in Hreset; intuition discriminate);
    try (exfalso;
         destruct (copy_phase_setup_cases plan next_op) as [Hs | Hs];
         rewrite Hs in Hreset; simpl in Hreset; intuition discriminate).
  congruence.
Qed.

(** X7.  When [Init] returns failure after the store has taken the -1 of
    the copy phase, the stored checkpoint is -1: a failed [Init] never
    leaves a checkpoint that a resume would append to. *)
Theorem Init_failure_leaves_minus_one
    (E : Collaborators) (install_plan : option InstallPlan)
    (source_may_exist : bool) (s s' : State) (evs : list Event)
    (Hrun : Init E install_plan source_may_exist s = (Val false, s'))
    (Htrace : trace s' = trace s ++ evs)
    (Hreset : In (EvSetInt64 (-1) true) evs) :
  prefs s' = Some (-1).
Proof.
  exact (Init_failure_state E install_plan source_may_exist s s' evs
           Hrun Htrace Hreset).
Qed.

Lemma Init_failure_leaves_minus_one_witness :
  (Init refusing_progress (Some fresh_plan) true (fresh_writer 4 (Some 7))
   = (Val false,
      set_prefs (Some (-1))
        (extend (empty_start_calls false) (opened_writer 4 (Some 7))))
   /\ trace (set_prefs (Some (-1))
               (extend (empty_start_calls false) (opened_writer 4 (Some 7))))
      = trace (fresh_writer 4 (Some 7)) ++ empty_start_calls false
   /\ In (EvSetInt64 (-1) true) (empty_start_calls false))
  /\ prefs (set_prefs (Some (-1))
              (extend (empty_start_calls false) (opened_writer 4 (Some 7))))
     = Some (-1).
Proof.
  assert (Hin : In (EvSetInt64 (-1) true) (empty_start_calls false))
    by (simpl; tauto).
  split; [split; [reflexivity|split; [reflexivity|exact Hin]]|].
  exact (Init_failure_leaves_minus_one refusing_progress (Some fresh_plan)
           true (fresh_writer 4 (Some 7)) _ (empty_start_calls false)
           eq_refl eq_refl Hin).
Defined.

(** X8.  On a plan that is not a resume, [Init] never reads the store:
    whatever checkpoint an earlier attempt left there plays no part in a
    fresh start. *)
Theorem Init_fresh_never_reads
    (E : Collaborators) (plan : InstallPlan) (source_may_exist : bool)
    (s s' : State) (res : Res bool) (evs : list Event)
    (Hfresh : is_resume plan = false)
    (Hrun : Init E (Some plan) source_may_exist s = (res, s'))
    (Htrace : trace s' = trace s ++ evs) :
  forall r, ~ In (EvGetInt64 r) evs.
Proof.
  intros got Hin.
  destruct (Init_runs E (Some plan) source_may_exist s s' res evs Hrun Htrace)
    as (r & _ & Hshape & _).
  inversion Hshape as
    [ | | | plan' Hplan Hresume
      | plan' next_op appended Hplan Hresume Hstored Hpos
      | plan' next_op Hplan Hrestarts
      | plan' next_op Hplan Hrestarts
      | plan' next_op w labelled r' Hplan Hrestarts Hall ]; subst;
    try (injection Hplan as <-);
    try congruence;
    try (simpl in Hin; intuition discriminate);
    try (unfold copy_phase_setup in Hin; rewrite Hfresh in Hin;
         simpl in Hin; intuition discriminate).
  unfold copy_phase_setup in Hin. rewrite Hfresh in Hin.
  simpl in Hin. destruct Hin as [H|[H|[H|[H|[H|Hin]]]]]; try discriminate H.
  apply in_app_or in Hin. destruct Hin as [Hin | Hin].
  - rewrite forallb_forall in Hall. apply Hall in Hin. discriminate Hin.
  - simpl in Hin. intuition discriminate.
Qed.

Lemma Init_fresh_never_reads_witness :
  (is_resume fresh_plan = false
   /\ Init plain (Some fresh_plan) true (fresh_writer 4 (Some 7))
      = (Val true,
         set_prefs (Some 0)
           (extend (empty_start_calls true) (opened_writer 4 (Some 7))))
   /\ trace (set_prefs (Some 0)
               (extend (empty_start_calls true) (opened_writer 4 (Some 7))))
      = trace (fresh_writer 4 (Some 7)) ++ empty_start_calls true)
  /\ forall r, ~ In (EvGetInt64 r) (empty_start_calls true).
Proof.
  split; [repeat split|].
  exact (Init_fresh_never_reads plain fresh_plan true
           (fresh_writer 4 (Some 7)) _ (Val true) (empty_start_calls true)
           eq_refl eq_refl eq_refl).
Defined.

(** X9.  The only values [Init] ever writes to the store are -1 and 0, and
    the only label it ever adds is label 0. *)
Theorem Init_writes_minus_one_and_zero
    (E : Collaborators) (install_plan : option InstallPlan)
    (source_may_exist : bool) (s s' : State) (res : Res bool)
    (evs : list Event)
    (Hrun : Init E install_plan source_may_exist s = (res, s'))
    (Htrace : trace s' = trace s ++ evs) :
  forallb bootstrap_value evs = true.
Proof.
  destruct (Init_runs E install_plan source_may_exist s s' res evs Hrun Htrace)
    as (r & _ & Hshape & _).
  inversion Hshape as
    [ | | | | plan next_op appended Hplan Hresume Hstored Hpos
      | plan next_op Hplan Hrestarts
      | plan next_op Hplan Hrestarts
      | plan next_op w labelled r' Hplan Hrestarts Hall ]; subst;
    try reflexivity;
    try (destruct (copy_phase_setup_cases plan next_op) as [-> | ->];
         reflexivity).
  assert (Hw : forallb bootstrap_value w = true).
  { apply forallb_forall. intros e He. apply copy_phase_write_bootstrap_value.
    rewrite forallb_forall in Hall. now apply Hall. }
  rewrite !forallb_app, Hw.
  destruct (copy_phase_setup_cases plan next_op) as [-> | ->]; reflexivity.
Qed.

Lemma Init_writes_minus_one_and_zero_witness :
  (Init cooperative (Some fresh_plan) true (fresh_writer 4 None)
   = (Val true,
      set_prefs (Some 0) (extend fresh_start_calls (opened_writer 4 None)))
   /\ trace (set_prefs (Some 0)
               (extend fresh_start_calls (opened_writer 4 None)))
      = trace (fresh_writer 4 None) ++ fresh_start_calls)
  /\ forallb bootstrap_value fresh_start_calls = true.
Proof.
  split; [split; reflexivity|].
  exact (Init_writes_minus_one_and_zero cooperative (Some fresh_plan) true
           (fresh_writer 4 None) _ (Val true) fresh_start_calls
           eq_refl eq_refl).
Defined.

(** X10.  [Init] calls [InitializeAppend(label)] only on a resumed plan
    and only with the stored checkpoint, which is then not negative; the
    answer to that call is the result of [Init]. *)
Theorem Init_appends_at_checkpoint
    (E : Collaborators) (install_plan : option InstallPlan)
    (source_may_exist : bool) (s s' : State) (res : Res bool)
    (evs : list Event) (label : Z) (ok : bool)
    (Hrun : Init E install_plan source_may_exist s = (res, s'))
    (Htrace : trace s' = trace s ++ evs)
    (Hcall : In (EvCow (InitializeAppend label) ok) evs) :
  exists plan,
    install_plan = Some plan
    /\ is_resume plan = true
    /\ prefs s = Some label
    /\ 0 <= label
    /\ res = Val ok.
Proof.
  exact (Init_appends_stored E install_plan source_may_exist s s' res evs
           label ok Hrun Htrace Hcall).
Qed.

Lemma Init_appends_at_checkpoint_witness :
  (Init cooperative (Some resume_plan) true (fresh_writer 4 (Some 3))
   = (Val true, extend resumed_calls (opened_writer 4 (Some 3)))
   /\ trace (extend resumed_calls (opened_writer 4 (Some 3)))
      = trace (fresh_writer 4 (Some 3)) ++ resumed_calls
   /\ In (EvCow (InitializeAppend 3) true) resumed_calls)
  /\ exists plan,
       Some resume_plan = Some plan
       /\ is_resume plan = true
       /\ prefs (fresh_writer 4 (Some 3)) = Some 3
       /\ 0 <= 3
       /\ Val true = Val true.
Proof.
  assert (Hin : In (EvCow (InitializeAppend 3) true) resumed_calls)
    by (simpl; tauto).
  split; [split; [reflexivity|split; [reflexivity|exact Hin]]|].
  exact (Init_appends_at_checkpoint cooperative (Some resume_plan) true
           (fresh_writer 4 (Some 3)) _ (Val true) resumed_calls 3 true
           eq_refl eq_refl Hin).
Defined.

Lemma Init_resume_appending
    (E : Collaborators) (plan : InstallPlan) (source_may_exist : bool)
    (s s' : State) (res : Res bool) (evs : list Event) (n : Z) :
  is_resume plan = true ->
  prefs s = Some n ->
  0 <= n ->
  Init E (Some plan) source_may_exist s = (res, s') ->
  trace s' = trace s ++ evs ->
  forallb appending_call evs = true /\ prefs s' = Some n.
Proof.
  intros Hresume Hstored Hpos Hrun Htrace.
  destruct (Init_runs E (Some plan) source_may_exist s s' res evs Hrun Htrace)
    as (r & _ & Hshape & _).
  assert (Hno : forall next_op, ~ restarts plan (prefs s) next_op).
  { intros next_op H. destruct (H Hresume) as [H1 H2]. rewrite Hstored in H1.
    injection H1 as <-. lia. }
  inversion Hshape as
    [ | | | | plan' next_op appended Hplan Hresume' Hstored' Hpos'
      | plan' next_op Hplan Hrestarts
      | plan' next_op Hplan Hrestarts
      | plan' next_op w labelled r' Hplan Hrestarts Hall ]; subst;
    try (injection Hplan as <-);
    try (exfalso; now apply (Hno next_op));
    (split; [reflexivity|congruence]).
Qed.

(** X11.  A resumed [Init] that finds a stored checkpoint that is not
    negative keeps the log: whether it succeeds or fails, it calls neither
    [Initialize()] nor the converter nor the source, writes no block data,
    adds no label, and leaves the stored checkpoint as it was. *)
Theorem Init_resume_keeps_log
    (E : Collaborators) (plan : InstallPlan) (source_may_exist : bool)
    (s s' : State) (res : Res bool) (evs : list Event) (n : Z)
    (Hresume : is_resume plan = true)
    (Hstored : prefs s = Some n)
    (Hpos : 0 <= n)
    (Hrun : Init E (Some plan) source_may_exist s = (res, s'))
    (Htrace : trace s' = trace s ++ evs) :
  forallb appending_call evs = true /\ prefs s' = Some n.
Proof.
  exact (Init_resume_appending E plan source_may_exist s s' res evs n
           Hresume Hstored Hpos Hrun Htrace).
Qed.

Lemma Init_resume_keeps_log_witness :
  (is_resume resume_plan = true
   /\ prefs (fresh_writer 4 (Some 3)) = Some 3
   /\ 0 <= 3
   /\ Init cooperative (Some resume_plan) true (fresh_writer 4 (Some 3))
      = (Val true, extend resumed_calls (opened_writer 4 (Some 3)))
   /\ trace (extend resumed_calls (opened_writer 4 (Some 3)))
      = trace (fresh_writer 4 (Some 3)) ++ resumed_calls)
  /\ forallb appending_call resumed_calls = true
  /\ prefs (extend resumed_calls (opened_writer 4 (Some 3))) = Some 3.
Proof.
  assert (Hpos : 0 <= 3) by lia.
  split; [repeat split; exact Hpos|].
  exact (Init_resume_keeps_log cooperative resume_plan true
           (fresh_writer 4 (Some 3)) _ (Val true) resumed_calls 3
           eq_refl eq_refl Hpos eq_refl eq_refl).
Defined.

(** ** Operations in sequence *)

(** The calls of [Flush]: a failed read, or a read and, unless the addition
    overflows, the label after the value read. *)
Lemma Flush_calls (E : Collaborators) (s s' : State) (res : Res bool)
    (evs : list Event) :
  cow_writer_ s = true ->
  Flush E s = (res, s') ->
  trace s' = trace s ++ evs ->
  evs = [EvGetInt64 None]
  \/ exists n, prefs s = Some n
       /\ (evs = [EvGetInt64 (Some n)]
           \/ exists labelled,
                Int64.in_range (n + 1) = true
                /\ evs = [EvGetInt64 (Some n);
                          EvCow (AddLabel (Int64.unsigned (n + 1))) labelled]).
Proof.
  intros Hw Hrun Htrace. unfold Flush, prefs_GetInt64 in Hrun.
  cbn [bind] in Hrun.
  destruct (if prefs_readable E (trace s) then prefs s else None)
    as [n|] eqn:Hget.
  - right. exists n. split.
    { destruct (prefs_readable E (trace s)); [exact Hget|discriminate Hget]. }
    unfold int64_add, Int64.add in Hrun.
    destruct (Int64.in_range (n + 1)) eqn:Hrange.
    + cbn [bind ret] in Hrun. rewrite cow_run in Hrun by exact Hw.
      injection Hrun as <- <-. new_events Htrace. right. eexists.
      split; [reflexivity|]. symmetry. exact Htrace.
    + injection Hrun as <- <-. new_events Htrace. left. now symmetry.
  - left. injection Hrun as <- <-. new_events Htrace. now symmetry.
Qed.

(** X12.  After a successful [Init], a label that [Flush] adds is the
    stored checkpoint plus one, and so at least 1: label 0, which marks the
    end of the copy phase, is not added a second time. *)
Theorem Flush_after_Init_label
    (E : Collaborators) (install_plan : option InstallPlan)
    (source_may_exist : bool) (s s1 s2 : State) (res : Res bool)
    (evs : list Event) (label : Z) (ok : bool)
    (Hinit : Init E install_plan source_may_exist s = (Val true, s1))
    (Hflush : Flush E s1 = (res, s2))
    (Htrace : trace s2 = trace s1 ++ evs)
    (Hlabel : In (EvCow (AddLabel label) ok) evs) :
  prefs s1 = Some (label - 1) /\ 1 <= label.
Proof.
  destruct (Init_success_state E install_plan source_may_exist s s1 Hinit)
    as (plan & n & _ & Hw & Hstored & Hpos & _).
  destruct (Flush_calls E s1 s2 res evs Hw Hflush Htrace)
    as [-> | (m & Hm & [-> | (labelled & Hrange & ->)])];
    try (simpl in Hlabel; intuition discriminate).
  simpl in Hlabel. destruct Hlabel as [H|[H|[]]]; [discriminate H|].
  rewrite Hstored in Hm. injection Hm as <-.
  unfold Int64.in_range in Hrange. apply andb_true_iff in Hrange.
  destruct Hrange as [_ Hmax]. apply Z.leb_le in Hmax.
  rewrite unsigned_small in H by lia.
  injection H as <- <-.
  split; [rewrite Hstored; f_equal; lia|lia].
Qed.

Lemma Flush_after_Init_label_witness :
  (Init plain (Some fresh_plan) true (fresh_writer 4 None)
   = (Val true,
      set_prefs (Some 0)
        (extend (empty_start_calls true) (opened_writer 4 None)))
   /\ Flush plain
        (set_prefs (Some 0)
           (extend (empty_start_calls true) (opened_writer 4 None)))
      = (Val true,
         set_prefs (Some 0)
           (extend (empty_start_calls true
                      ++ [EvGetInt64 (Some 0); EvCow (AddLabel 1) true])
                   (opened_writer 4 None)))
   /\ trace (set_prefs (Some 0)
               (extend (empty_start_calls true
                          ++ [EvGetInt64 (Some 0); EvCow (AddLabel 1) true])
                       (opened_writer 4 None)))
      = trace (set_prefs (Some 0)
                 (extend (empty_start_calls true) (opened_writer 4 None)))
        ++ [EvGetInt64 (Some 0); EvCow (AddLabel 1) true]
   /\ In (EvCow (AddLabel 1) true)
         [EvGetInt64 (Some 0); EvCow (AddLabel 1) true])
  /\ prefs (set_prefs (Some 0)
              (extend (empty_start_calls true) (opened_writer 4 None)))
     = Some (1 - 1)
  /\ 1 <= 1.
Proof.
  assert (Hin : In (EvCow (AddLabel 1) true)
                   [EvGetInt64 (Some 0); EvCow (AddLabel 1) true])
    by (simpl; tauto).
  split; [split; [reflexivity|split; [reflexivity|split;
            [reflexivity|exact Hin]]]|].
  exact (Flush_after_Init_label plain (Some fresh_plan) true
           (fresh_writer 4 None) _ _ (Val true)
           [EvGetInt64 (Some 0); EvCow (AddLabel 1) true] 1 true
           eq_refl eq_refl eq_refl Hin).
Defined.

(** X13.  [CheckpointUpdateProgress(n)] followed by [Flush()], on a writer
    whose COW writer is open, with a store that takes the write and then
    answers the read: for an index [n] below the largest [int64_t], the
    store holds [n], the COW writer is asked for label [n + 1], and
    [Flush] returns success. *)
Theorem CheckpointUpdateProgress_then_Flush_label
    (E : Collaborators) (n : Z) (s : State)
    (Hopen : cow_writer_ s = true)
    (Hindex : 0 <= n < Int64.max_signed)
    (Hwrite : prefs_writable E (trace s) n = true)
    (Hread : prefs_readable E (trace s ++ [EvSetInt64 n true]) = true) :
  exists labelled,
    (_ <- CheckpointUpdateProgress E n ;; Flush E) s
    = (Val true,
       set_prefs (Some n)
         (extend [EvSetInt64 n true; EvGetInt64 (Some n);
                  EvCow (AddLabel (n + 1)) labelled] s)).
Proof.
  assert (Hsigned : Int64.signed n = n).
  { unfold Int64.signed, Int64.modulus, Int64.max_signed in *.
    rewrite Z.mod_small by lia.
    destruct (n <=? 9223372036854775807) eqn:Hle; [reflexivity|].
    apply Z.leb_gt in Hle. lia. }
  assert (Hrange : Int64.in_range (n + 1) = true).
  { unfold Int64.in_range, Int64.min_signed, Int64.max_signed in *.
    apply andb_true_iff. split; apply Z.leb_le; lia. }
  unfold CheckpointUpdateProgress, prefs_SetInt64. cbn [bind ret].
  rewrite Hsigned, Hwrite.
  unfold Flush, prefs_GetInt64. cbn [bind trace record set_prefs prefs].
  rewrite Hread. unfold int64_add, Int64.add. rewrite Hrange.
  cbn [bind ret]. rewrite unsigned_small by lia.
  rewrite cow_run by exact Hopen.
  eexists. f_equal. unfold extend, record, set_prefs. cbn.
  rewrite <- !app_assoc. reflexivity.
Qed.

Lemma CheckpointUpdateProgress_then_Flush_label_witness :
  (cow_writer_ (opened_writer 4096 (Some 4)) = true
   /\ 0 <= 5 < Int64.max_signed
   /\ prefs_writable plain (trace (opened_writer 4096 (Some 4))) 5 = true
   /\ prefs_readable plain
        (trace (opened_writer 4096 (Some 4)) ++ [EvSetInt64 5 true]) = true)
  /\ exists labelled,
       (_ <- CheckpointUpdateProgress plain 5 ;; Flush plain)
         (opened_writer 4096 (Some 4))
       = (Val true,
          set_prefs (Some 5)
            (extend [EvSetInt64 5 true; EvGetInt64 (Some 5);
                     EvCow (AddLabel (5 + 1)) labelled]
                    (opened_writer 4096 (Some 4)))).
Proof.
  assert (Hindex : 0 <= 5 < Int64.max_signed)
    by (unfold Int64.max_signed; lia).
  split; [split; [reflexivity|split; [exact Hindex|split; reflexivity]]|].
  exact (CheckpointUpdateProgress_then_Flush_label plain 5
           (opened_writer 4096 (Some 4)) eq_refl Hindex eq_refl eq_refl).
Defined.

Lemma destructor_result (E : Collaborators) (s : State) :
  fst (destructor E s) = if cow_writer_ s then Val tt else Undefined.
Proof.
  unfold destructor, prefs_SetInt64, cow. cbn [bind].
  destruct (prefs_writable E (trace s) (-1));
    cbn [cow_writer_ record set_prefs]; destruct (cow_writer_ s); reflexivity.
Qed.

(** X14.  The destructor of a writer that was constructed without a COW
    writer and went through one [Init] is defined exactly when that [Init]
    obtained a COW writer from [OpenCowWriter].  After an [Init] that
    failed earlier, or at [OpenCowWriter], the destructor calls [Finalize]
    through a null pointer. *)
Theorem destructor_defined_iff_opened
    (E : Collaborators) (install_plan : option InstallPlan)
    (source_may_exist : bool) (s s1 : State) (res : Res bool)
    (evs : list Event)
    (Hnull : cow_writer_ s = false)
    (Hinit : Init E install_plan source_may_exist s = (res, s1))
    (Htrace : trace s1 = trace s ++ evs) :
  fst (destructor E s1) = Val tt
  <-> exists resume, In (EvOpenCowWriter resume true) evs.
Proof.
  destruct (Init_runs E install_plan source_may_exist s s1 res evs
              Hinit Htrace) as (r & _ & Hshape & Hw).
  rewrite destructor_result, Hw, Hnull.
  inversion Hshape as
    [ | | | | plan next_op appended Hplan Hresume Hstored Hpos
      | plan next_op Hplan Hrestarts
      | plan next_op Hplan Hrestarts
      | plan next_op w labelled r' Hplan Hrestarts Hall ]; subst;
    try (destruct (copy_phase_setup_cases plan next_op) as [-> | ->]);
    cbn [writer_after app];
    try (split; [discriminate|];
         intros [resume Hin]; simpl in Hin; exfalso; intuition discriminate);
    (split; [intros _; eexists; simpl; eauto|reflexivity]).
Qed.

Lemma destructor_defined_iff_opened_witness :
  (cow_writer_ (fresh_writer 4096 (Some 5)) = false
   /\ Init no_cow_writer (Some fresh_plan) true (fresh_writer 4096 (Some 5))
      = (Val false, extend unopened_Init_calls (fresh_writer 4096 (Some 5)))
   /\ trace (extend unopened_Init_calls (fresh_writer 4096 (Some 5)))
      = trace (fresh_writer 4096 (Some 5)) ++ unopened_Init_calls)
  /\ (fst (destructor no_cow_writer
             (extend unopened_Init_calls (fresh_writer 4096 (Some 5))))
      = Val tt
      <-> exists resume, In (EvOpenCowWriter resume true) unopened_Init_calls).
Proof.
  split; [repeat split|].
  exact (destructor_defined_iff_opened no_cow_writer (Some fresh_plan) true
           (fresh_writer 4096 (Some 5)) _ (Val false) unopened_Init_calls
           eq_refl eq_refl eq_refl).
Defined.

(** X15.  After a destructor whose reset of the checkpoint the store
    accepted, no [Init] appends to the old log: a resumed [Init] finds -1
    and, if it gets that far, starts over with [Initialize()]. *)
Theorem Init_after_destructor_never_appends
    (E : Collaborators) (install_plan : option InstallPlan)
    (source_may_exist : bool) (s s1 s2 : State)
    (res1 : Res unit) (res2 : Res bool) (evs : list Event)
    (Hreset : prefs_writable E (trace s) (-1) = true)
    (Hdestructor : destructor E s = (res1, s1))
    (Hinit : Init E install_plan source_may_exist s1 = (res2, s2))
    (Htrace : trace s2 = trace s1 ++ evs) :
  forall label ok, ~ In (EvCow (InitializeAppend label) ok) evs.
Proof.
  intros label ok Hin.
  assert (Hstored : prefs s1 = Some (-1)).
  { unfold destructor, prefs_SetInt64 in Hdestructor.
    cbn [bind] in Hdestructor. rewrite Hreset in Hdestructor.
    pose proof (cow_keeps_prefs E Finalize
                  (record (EvSetInt64 (-1) true) (set_prefs (Some (-1)) s)))
      as Hkeeps.
    destruct (cow E Finalize _) as [[b|] s1'];
      injection Hdestructor as <- <-; exact Hkeeps. }
  destruct (Init_appends_stored E install_plan source_may_exist s1 s2 res2
              evs label ok Hinit Htrace Hin)
    as (plan & _ & _ & Hlabel & Hpos & _).
  rewrite Hstored in Hlabel. injection Hlabel as <-. lia.
Qed.

Lemma Init_after_destructor_never_appends_witness :
  (prefs_writable plain (trace (opened_writer 4 (Some 3))) (-1) = true
   /\ destructor plain (opened_writer 4 (Some 3))
      = (Val tt,
         set_prefs (Some (-1))
           (extend [EvSetInt64 (-1) true; EvCow Finalize true]
                   (opened_writer 4 (Some 3))))
   /\ Init plain (Some resume_plan) true
        (set_prefs (Some (-1))
           (extend [EvSetInt64 (-1) true; EvCow Finalize true]
                   (opened_writer 4 (Some 3))))
      = (Val true,
         set_prefs (Some 0)
           (extend ([EvSetInt64 (-1) true; EvCow Finalize true]
                      ++ restart_calls)
                   (opened_writer 4 (Some 3))))
   /\ trace (set_prefs (Some 0)
               (extend ([EvSetInt64 (-1) true; EvCow Finalize true]
                          ++ restart_calls)
                       (opened_writer 4 (Some 3))))
      = trace (set_prefs (Some (-1))
                 (extend [EvSetInt64 (-1) true; EvCow Finalize true]
                         (opened_writer 4 (Some 3))))
        ++ restart_calls)
  /\ forall label ok, ~ In (EvCow (InitializeAppend label) ok) restart_calls.
Proof.
  split; [repeat split|].
  exact (Init_after_destructor_never_appends plain (Some resume_plan) true
           (opened_writer 4 (Some 3)) _ _ (Val tt) (Val true) restart_calls
           eq_refl eq_refl eq_refl eq_refl).
Defined.

(** X16.  After an [Init] that failed once the store had taken the -1 of
    the copy phase, no later [Init] appends to the half-written log: a
    resume finds -1 and, if it gets that far, starts over with
    [Initialize()]. *)
Theorem Init_retry_never_appends
    (E : Collaborators) (plan1 plan2 : option InstallPlan)
    (may_exist1 may_exist2 : bool) (s s1 s2 : State) (res : Res bool)
    (evs1 evs2 : list Event)
    (Hfirst : Init E plan1 may_exist1 s = (Val false, s1))
    (Htrace1 : trace s1 = trace s ++ evs1)
    (Hreset : In (EvSetInt64 (-1) true) evs1)
    (Hsecond : Init E plan2 may_exist2 s1 = (res, s2))
    (Htrace2 : trace s2 = trace s1 ++ evs2) :
  forall label ok, ~ In (EvCow (InitializeAppend label) ok) evs2.
Proof.
  intros label ok Hin.
  pose proof (Init_failure_state E plan1 may_exist1 s s1 evs1
                Hfirst Htrace1 Hreset) as Hstored.
  destruct (Init_appends_stored E plan2 may_exist2 s1 s2 res evs2 label ok
              Hsecond Htrace2 Hin) as (plan & _ & _ & Hlabel & Hpos & _).
  rewrite Hstored in Hlabel. injection Hlabel as <-. lia.
Qed.

Lemma Init_retry_never_appends_witness :
  (Init refusing_progress (Some fresh_plan) true (fresh_writer 4 (Some 7))
   = (Val false,
      set_prefs (Some (-1))
        (extend (empty_start_calls false) (opened_writer 4 (Some 7))))
   /\ trace (set_prefs (Some (-1))
               (extend (empty_start_calls false) (opened_writer 4 (Some 7))))
      = trace (fresh_writer 4 (Some 7)) ++ empty_start_calls false
   /\ In (EvSetInt64 (-1) true) (empty_start_calls false)
   /\ Init refusing_progress (Some resume_plan) true
        (set_prefs (Some (-1))
           (extend (empty_start_calls false) (opened_writer 4 (Some 7))))
      = (Val false,
         set_prefs (Some (-1))
           (extend (empty_start_calls false
                      ++ [EvPartitionWriterInit true;
                          EvOpenCowWriter true true;
                          EvGetInt64 (Some (-1)); EvCow Initialize true;
                          EvSetInt64 (-1) true; EvConvert;
                          EvCow (AddLabel 0) true; EvSetInt64 0 false])
                   (opened_writer 4 (Some 7))))
   /\ trace (set_prefs (Some (-1))
               (extend (empty_start_calls false
                          ++ [EvPartitionWriterInit true;
                              EvOpenCowWriter true true;
                              EvGetInt64 (Some (-1)); EvCow Initialize true;
                              EvSetInt64 (-1) true; EvConvert;
                              EvCow (AddLabel 0) true; EvSetInt64 0 false])
                       (opened_writer 4 (Some 7))))
      = trace (set_prefs (Some (-1))
                 (extend (empty_start_calls false)
                         (opened_writer 4 (Some 7))))
        ++ [EvPartitionWriterInit true; EvOpenCowWriter true true;
            EvGetInt64 (Some (-1)); EvCow Initialize true;
            EvSetInt64 (-1) true; EvConvert;
            EvCow (AddLabel 0) true; EvSetInt64 0 false])
  /\ forall label ok,
       ~ In (EvCow (InitializeAppend label) ok)
            [EvPartitionWriterInit true; EvOpenCowWriter true true;
             EvGetInt64 (Some (-1)); EvCow Initialize true;
             EvSetInt64 (-1) true; EvConvert;
             EvCow (AddLabel 0) true; EvSetInt64 0 false].
Proof.
  assert (Hin : In (EvSetInt64 (-1) true) (empty_start_calls false))
    by (simpl; tauto).
  split; [split; [reflexivity|split; [reflexivity|split; [exact Hin|
            split; reflexivity]]]|].
  exact (Init_retry_never_appends refusing_progress (Some fresh_plan)
           (Some resume_plan) true true (fresh_writer 4 (Some 7)) _ _
           (Val false) (empty_start_calls false) _
           eq_refl eq_refl Hin eq_refl eq_refl).
Defined.

(** X17.  Progress recorded by [CheckpointUpdateProgress(n)], once the
    store has taken it, is where a resume picks up: a resumed [Init] keeps
    the log and the stored [n], and if it calls [InitializeAppend] it is
    with label [n]. *)
Theorem Init_resumes_at_recorded_progress
    (E : Collaborators) (n : Z) (plan : InstallPlan)
    (source_may_exist : bool) (s s1 s2 : State)
    (res1 : Res unit) (res2 : Res bool) (evs : list Event)
    (Hindex : 0 <= n <= Int64.max_signed)
    (Hwrite : prefs_writable E (trace s) n = true)
    (Hprogress : CheckpointUpdateProgress E n s = (res1, s1))
    (Hresume : is_resume plan = true)
    (Hinit : Init E (Some plan) source_may_exist s1 = (res2, s2))
    (Htrace : trace s2 = trace s1 ++ evs) :
  forallb appending_call evs = true
  /\ prefs s2 = Some n
  /\ forall label ok, In (EvCow (InitializeAppend label) ok) evs -> label = n.
Proof.
  assert (Hsigned : Int64.signed n = n).
  { unfold Int64.signed, Int64.modulus, Int64.max_signed in *.
    rewrite Z.mod_small by lia.
    destruct (n <=? 9223372036854775807) eqn:Hle; [reflexivity|].
    apply Z.leb_gt in Hle. lia. }
  assert (Hstored : prefs s1 = Some n).
  { unfold CheckpointUpdateProgress, prefs_SetInt64 in Hprogress.
    cbn [bind ret] in Hprogress. rewrite Hsigned, Hwrite in Hprogress.
    injection Hprogress as <- <-. reflexivity. }
  destruct (Init_resume_appending E plan source_may_exist s1 s2 res2 evs n
              Hresume Hstored (proj1 Hindex) Hinit Htrace) as [Hcalls Hkept].
  split; [exact Hcalls|]. split; [exact Hkept|].
  intros label ok Hin.
  destruct (Init_appends_stored E (Some plan) source_may_exist s1 s2 res2
              evs label ok Hinit Htrace Hin) as (_ & _ & _ & Hlabel & _).
  congruence.
Qed.

Lemma Init_resumes_at_recorded_progress_witness :
  (0 <= 3 <= Int64.max_signed
   /\ prefs_writable plain (trace (fresh_writer 4 (Some 2))) 3 = true
   /\ CheckpointUpdateProgress plain 3 (fresh_writer 4 (Some 2))
      = (Val tt,
         set_prefs (Some 3)
           (extend [EvSetInt64 3 true] (fresh_writer 4 (Some 2))))
   /\ is_resume resume_plan = true
   /\ Init plain (Some resume_plan) true
        (set_prefs (Some 3)
           (extend [EvSetInt64 3 true] (fresh_writer 4 (Some 2))))
      = (Val true,
         extend ([EvSetInt64 3 true] ++ resumed_calls)
                (opened_writer 4 (Some 3)))
   /\ trace (extend ([EvSetInt64 3 true] ++ resumed_calls)
                    (opened_writer 4 (Some 3)))
      = trace (set_prefs (Some 3)
                 (extend [EvSetInt64 3 true] (fresh_writer 4 (Some 2))))
        ++ resumed_calls)
  /\ forallb appending_call resumed_calls = true
  /\ prefs (extend ([EvSetInt64 3 true] ++ resumed_calls)
                   (opened_writer 4 (Some 3))) = Some 3
  /\ forall label ok,
       In (EvCow (InitializeAppend label) ok) resumed_calls -> label = 3.
Proof.
  assert (Hindex : 0 <= 3 <= Int64.max_signed)
    by (unfold Int64.max_signed; lia).
  split; [split; [exact Hindex|repeat split]|].
  exact (Init_resumes_at_recorded_progress plain 3 resume_plan true
           (fresh_writer 4 (Some 2)) _ _ (Val tt) (Val true) resumed_calls
           Hindex eq_refl eq_refl eq_refl eq_refl eq_refl).
Defined.
